(** * Geoloc: nearest-hub resolution and the hub registry

    A shallow embedding of [app/models/location.py] and
    [app/services/location_service.py], of the validator of the source
    type in [app/core/config.py], and of the route handlers that use the
    service in [app/api/routes/address_router.py] and
    [app/api/routes/webhook_router.py].

    - Python floats that reach the resolver are finite (coordinates
      passed the range validation of [Coordinates], and [haversine] is
      taken to return a finite distance for them); they are modelled by
      the rationals they denote, compared with the order of [Q].  Two
      floats are "floating-point equal" when they are [Qeq].
    - [haversine] (package [haversine]) is a section variable of the
      resolver; [float] on a string, [str] and pydantic's [str]
      validation are the fields of [PyLib].  None of them is repository
      code.  The formula the specification gives for the great-circle
      distance is modelled over the real numbers in [Spherical].
    - Exceptions are values: a function that may raise returns a
      [result].  State is passed explicitly, and a call that assigns to
      the service returns the successive states of the service. *)

From Stdlib Require Import Reals Qreals.
From Stdlib Require Import List String Ascii ZArith QArith Qabs Bool Lia Lqa Sorted Permutation.
From Stdlib Require Lra.
From stdpp Require Import gmap strings pretty.
Import ListNotations.

Open Scope string_scope.

(** ** Exceptions *)

Inductive ExcClass : Type :=
| KeyError
| ValueError
| LocationServiceError
| OtherException.

(** An exception object: its class and [str(e)]. *)
Definition exn : Type := (ExcClass * string)%type.

Inductive result (A : Type) : Type :=
| Ok (a : A)
| Raised (e : exn).

Arguments Ok {A} a.
Arguments Raised {A} e.

#[global] Instance result_ret : MRet result := fun A a => Ok a.

#[global] Instance result_bind : MBind result := fun A B k r =>
  match r with
  | Ok a => k a
  | Raised e => Raised e
  end.

Definition raise {A : Type} (c : ExcClass) (msg : string) : result A :=
  Raised (c, msg).

Definition raises {A : Type} (c : ExcClass) (r : result A) : Prop :=
  match r with
  | Raised (c', _) => c' = c
  | Ok _ => False
  end.

(** ** Python built-ins used by the resolver *)

Module Py.

(** A finite Python float, as the rational it denotes. *)
Abbreviation float := Q.

Definition ltb (x y : float) : bool := negb (Qle_bool y x).

Section Keyed.
Context {A : Type} (key : A -> float).

(** [min(l, key=key)]: one left-to-right scan that keeps the current
    best item and replaces it only by an item whose key is strictly
    smaller. *)
Fixpoint min_scan (best : A) (l : list A) : A :=
  match l with
  | [] => best
  | x :: l' => min_scan (if ltb (key x) (key best) then x else best) l'
  end.

(** [None] stands for the [ValueError] of [min] on an empty sequence. *)
Definition min (l : list A) : option A :=
  match l with
  | [] => None
  | x :: l' => Some (min_scan x l')
  end.

(** [sorted(l, key=key)] is a stable sort that compares keys with [<]
    only.  A stable sort has one possible output, so it is modelled by
    the stable insertion sort. *)
Fixpoint insert (x : A) (l : list A) : list A :=
  match l with
  | [] => [x]
  | y :: l' => if ltb (key y) (key x) then y :: insert x l' else x :: y :: l'
  end.

Fixpoint sorted (l : list A) : list A :=
  match l with
  | [] => []
  | x :: l' => insert x (sorted l')
  end.
End Keyed.

(** [l[:n]]: a negative stop counts from the end of the list. *)
Definition slice_to {A : Type} (l : list A) (n : Z) : list A :=
  if (0 <=? n)%Z then firstn (Z.to_nat n) l
  else firstn (Z.to_nat (Z.of_nat (length l) + n)) l.

End Py.

(** ** Models ([app/models/location.py]) *)

Record Coordinates : Type := {
  latitude : Py.float;
  longitude : Py.float
}.

Record Location : Type := {
  id : option string;
  name : string;
  address : string;
  city : option string;
  state : option string;
  postal_code : option string;
  country : option string;
  coordinates : Coordinates;
  region : option string;
  type : option string;
  active : bool
}.

Definition datetime : Type := Z.

(** ** The service ([app/services/location_service.py]) *)

Record LocationService : Type := {
  locations : list Location;
  last_loaded : option datetime;
  data_source_type : string
}.

(** [LocationService.__init__] *)
Definition init (DATA_SOURCE_TYPE : string) : LocationService :=
  {| locations := []; last_loaded := None; data_source_type := DATA_SOURCE_TYPE |}.

Definition option_string_eqb (o : option string) (s : string) : bool :=
  match o with
  | Some s' => String.eqb s' s
  | None => false
  end.

Section Resolver.
(** [haversine(point1, point2, unit=Unit.KILOMETERS)] *)
Variable haversine : Py.float * Py.float -> Py.float * Py.float -> Py.float.

(** The body of the distance loop: [(location, distance)]. *)
Definition with_distance (coords : Coordinates) (location : Location)
  : Location * Py.float :=
  let point1 := (latitude coords, longitude coords) in
  let point2 := (latitude (coordinates location), longitude (coordinates location)) in
  (location, haversine point1 point2).

Definition active_locations (self : LocationService) : list Location :=
  List.filter active (locations self).

Definition find_nearest_location (self : LocationService) (coords : Coordinates)
  : result (Location * Py.float) :=
  match locations self with
  | [] => raise LocationServiceError "No locations loaded"
  | _ :: _ =>
    match active_locations self with
    | [] => raise LocationServiceError "No active locations found"
    | _ :: _ =>
      let distances := List.map (with_distance coords) (active_locations self) in
      match Py.min snd distances with
      | Some nearest => Ok nearest
      | None => raise ValueError "min() arg is an empty sequence"
      end
    end
  end.

Definition find_nearest_n_locations (self : LocationService) (coords : Coordinates)
  (n : Z) : result (list (Location * Py.float)) :=
  match locations self with
  | [] => raise LocationServiceError "No locations loaded"
  | _ :: _ =>
    match active_locations self with
    | [] => raise LocationServiceError "No active locations found"
    | _ :: _ =>
      let distances := List.map (with_distance coords) (active_locations self) in
      Ok (Py.slice_to (Py.sorted snd distances) n)
    end
  end.

(** [calculate_distance] (a static method). *)
Definition calculate_distance (point1 point2 : Coordinates) : Py.float :=
  let coord1 := (latitude point1, longitude point1) in
  let coord2 := (latitude point2, longitude point2) in
  haversine coord1 coord2.
End Resolver.

(** ** Structural queries *)

Fixpoint get_location_by_id_scan (l : list Location) (location_id : string)
  : option Location :=
  match l with
  | [] => None
  | location :: l' =>
    if option_string_eqb (id location) location_id then Some location
    else get_location_by_id_scan l' location_id
  end.

Definition get_location_by_id (self : LocationService) (location_id : string)
  : option Location :=
  get_location_by_id_scan (locations self) location_id.

Definition get_locations_by_region (self : LocationService) (reg : string)
  : list Location :=
  List.filter (fun loc => option_string_eqb (region loc) reg) (locations self).

Record Counts : Type := {
  total : Z;
  active_count : Z;
  inactive_count : Z
}.

Definition get_locations_count (self : LocationService) : Counts :=
  let active_n := Z.of_nat (length (List.filter active (locations self))) in
  let inactive_n := (Z.of_nat (length (locations self)) - active_n)%Z in
  {| total := Z.of_nat (length (locations self));
     active_count := active_n;
     inactive_count := inactive_n |}.

(** ** Raw records *)

(** A Python float before validation. *)
Inductive PyFloat : Type :=
| Fin (q : Q)
| PosInf
| NegInf
| NaN.

(** A cell of a raw record as [pandas.read_csv], gspread's
    [get_all_records] and [pandas.read_sql] hand it over: a string, an
    integer of any size, a float ([NaN] for an empty CSV cell), a
    boolean, or [None] (a database NULL in a column of objects). *)
Inductive PyVal : Type :=
| PyStr (s : string)
| PyInt (z : Z)
| PyFloatV (x : PyFloat)
| PyBool (b : bool)
| PyNone.

(** A row: column label to cell. *)
Abbreviation Row := (gmap string PyVal).

(** Library behaviour the loaders rely on and that is not repository code. *)
Record PyLib : Type := {
  (** [float(s)] on a string; [None] is its [ValueError]. *)
  float_of_str : string -> option PyFloat;
  (** [str(v)] *)
  py_str : PyVal -> string;
  (** pydantic's validation of a [str] field; [None] is a validation error. *)
  str_validator : PyVal -> option string
}.

(** [row[key]] *)
Definition getitem (row : Row) (key : string) : result PyVal :=
  match row !! key with
  | Some v => Ok v
  | None => raise KeyError key
  end.

(** [row.get(key, dflt)] *)
Definition get_default (row : Row) (key : string) (dflt : PyVal) : PyVal :=
  match row !! key with
  | Some v => v
  | None => dflt
  end.

(** [bool(v)] *)
Definition py_bool (v : PyVal) : bool :=
  match v with
  | PyStr s => negb (String.eqb s "")
  | PyInt z => negb (z =? 0)%Z
  | PyFloatV (Fin q) => negb (Qeq_bool q 0)
  | PyFloatV _ => true
  | PyBool b => b
  | PyNone => false
  end.

(** The integers [float] refuses with [OverflowError]: those that round
    (to nearest, ties to even) to a magnitude of [2 ** 1024] or more. *)
Definition overflows (z : Z) : bool := (2 ^ 1024 - 2 ^ 970 <=? Z.abs z)%Z.

(** [Field(..., ge=lo, le=hi)] on a float field: pydantic rejects the
    value unless [v >= lo] and [v <= hi]; its [ValidationError] is a
    [ValueError]. *)
Definition ge_le (lo hi : Q) (v : PyFloat) : result Py.float :=
  match v with
  | Fin q =>
    if Qle_bool lo q then
      if Qle_bool q hi then Ok q
      else raise ValueError "ensure this value is less than or equal to the bound"
    else raise ValueError "ensure this value is greater than or equal to the bound"
  | PosInf => raise ValueError "ensure this value is less than or equal to the bound"
  | NegInf => raise ValueError "ensure this value is greater than or equal to the bound"
  | NaN => raise ValueError "ensure this value is greater than or equal to the bound"
  end.

(** [Coordinates(latitude=lat, longitude=lon)] *)
Definition Coordinates_new (lat lon : PyFloat) : result Coordinates :=
  lat' ← ge_le (-90) 90 lat;
  lon' ← ge_le (-180) 180 lon;
  Ok {| latitude := lat'; longitude := lon' |}.

(** ** The outside world of a load *)

Record World : Type := {
  CSV_FILE_PATH : string;
  GOOGLE_SHEETS_ID : option string;
  GOOGLE_CREDENTIALS_JSON : string;
  DATABASE_URL : option string;
  DATABASE_TABLE : string;
  (** [os.path.exists] *)
  path_exists : string -> bool;
  (** [pd.read_csv(file_path)] followed by [df.iterrows()] *)
  read_csv : string -> result (list Row);
  (** credentials, [gspread.authorize], [open_by_key], [worksheet],
      [get_all_records] *)
  get_all_records : result (list Row);
  (** [create_engine] and [pd.read_sql] followed by [df.iterrows()] *)
  read_sql : result (list Row);
  (** [datetime.utcnow()] *)
  utcnow : datetime
}.

(** [not s] for an optional string setting. *)
Definition falsy (o : option string) : bool :=
  match o with
  | None => true
  | Some s => String.eqb s ""
  end.

(** What a call did: the service after each assignment to, or in-place
    growth of, one of its attributes (oldest first), and the value it
    returned or the exception it raised. *)
Record run (A : Type) : Type := {
  states : list LocationService;
  value : result A
}.

Arguments states {A} r.
Arguments value {A} r.

(** The service as the call leaves it. *)
Definition final {A : Type} (self : LocationService) (r : run A) : LocationService :=
  List.last (states r) self.

Definition set_locations (self : LocationService) (l : list Location) : LocationService :=
  {| locations := l; last_loaded := last_loaded self;
     data_source_type := data_source_type self |}.

Definition set_last_loaded (self : LocationService) (t : option datetime) : LocationService :=
  {| locations := locations self; last_loaded := t;
     data_source_type := data_source_type self |}.

Section Loader.
Variable lib : PyLib.

(** [float(v)].  A string that is not a number is a [ValueError]; an
    integer too large for a float is an [OverflowError] and [None] a
    [TypeError], neither of which is a [ValueError].  An integer cell
    within the coordinate bounds is converted exactly; a larger one is
    rounded, which cannot move it across a bound. *)
Definition py_float (v : PyVal) : result PyFloat :=
  match v with
  | PyStr s =>
    match float_of_str lib s with
    | Some x => Ok x
    | None => raise ValueError ("could not convert string to float: " ++ s)
    end
  | PyInt z =>
    if overflows z then raise OtherException "int too large to convert to float"
    else Ok (Fin (inject_Z z))
  | PyFloatV x => Ok x
  | PyBool b => Ok (Fin (if b then 1 else 0))
  | PyNone =>
    raise OtherException
      "float() argument must be a string or a real number, not 'NoneType'"
  end.

(** A required [str] field: [None] is refused before the validator of
    the type runs. *)
Definition validate_str (field : string) (v : PyVal) : result string :=
  match v with
  | PyNone => raise ValueError (field ++ ": none is not an allowed value")
  | _ =>
    match str_validator lib v with
    | Some s => Ok s
    | None => raise ValueError (field ++ ": str type expected")
    end
  end.

(** An [Optional[str]] field given [row.get(key)]: [None] is stored as
    it is. *)
Definition validate_opt_str (field : string) (o : option PyVal)
  : result (option string) :=
  match o with
  | None | Some PyNone => Ok None
  | Some v => s ← validate_str field v; Ok (Some s)
  end.

(** The [Location(...)] expression of the row loop: the arguments are
    evaluated in the order they are written, then the model validates
    its fields. *)
Definition make_location (row : Row) : result Location :=
  let id_arg := py_str lib (get_default row "id" (PyStr "")) in
  name_arg ← getitem row "name";
  address_arg ← getitem row "address";
  let city_arg := row !! "city" in
  let state_arg := row !! "state" in
  let postal_code_arg := row !! "postal_code" in
  let country_arg := row !! "country" in
  lat_cell ← getitem row "latitude";
  lat ← py_float lat_cell;
  lon_cell ← getitem row "longitude";
  lon ← py_float lon_cell;
  coordinates_arg ← Coordinates_new lat lon;
  let region_arg := row !! "region" in
  let type_arg := row !! "type" in
  let active_arg := py_bool (get_default row "active" (PyBool true)) in
  name' ← validate_str "name" name_arg;
  address' ← validate_str "address" address_arg;
  city' ← validate_opt_str "city" city_arg;
  state' ← validate_opt_str "state" state_arg;
  postal_code' ← validate_opt_str "postal_code" postal_code_arg;
  country' ← validate_opt_str "country" country_arg;
  region' ← validate_opt_str "region" region_arg;
  type' ← validate_opt_str "type" type_arg;
  Ok {| id := Some id_arg; name := name'; address := address';
        city := city'; state := state'; postal_code := postal_code';
        country := country'; coordinates := coordinates_arg;
        region := region'; type := type'; active := active_arg |}.

(** The row loop, which the three loaders share word for word: a row
    whose construction raises [KeyError] or [ValueError] is logged and
    skipped, any other exception leaves the loop. *)
Fixpoint process_rows (self : LocationService) (rows : list Row) : run unit :=
  match rows with
  | [] => {| states := []; value := Ok () |}
  | row :: rows' =>
    match make_location row with
    | Ok location =>
      let self' := set_locations self (locations self ++ [location]) in
      let r := process_rows self' rows' in
      {| states := self' :: states r; value := value r |}
    | Raised (KeyError, _) => process_rows self rows'
    | Raised (ValueError, _) => process_rows self rows'
    | Raised e => {| states := []; value := Raised e |}
    end
  end.

(** From [self.locations = []] to the end of the [try] block; [what]
    names the source in the message of the wrapping exception. *)
Definition clear_and_process (what : string) (self : LocationService)
  (rows : list Row) : run unit :=
  let self' := set_locations self [] in
  let r := process_rows self' rows in
  {| states := self' :: states r;
     value := match value r with
              | Ok u => Ok u
              | Raised e =>
                raise LocationServiceError ("Error loading from " ++ what ++ ": " ++ snd e)
              end |}.

Definition failed {A : Type} (msg : string) : run A :=
  {| states := []; value := raise LocationServiceError msg |}.

Definition _load_from_csv (w : World) (self : LocationService) : run unit :=
  let file_path := CSV_FILE_PATH w in
  if negb (path_exists w file_path) then
    failed ("CSV file not found: " ++ file_path)
  else
    match read_csv w file_path with
    | Raised e => failed ("Error loading from CSV: " ++ snd e)
    | Ok rows => clear_and_process "CSV" self rows
    end.

Definition _load_from_google_sheets (w : World) (self : LocationService) : run unit :=
  let credentials_path := GOOGLE_CREDENTIALS_JSON w in
  if falsy (GOOGLE_SHEETS_ID w) then
    failed "Google Sheets ID not configured"
  else if negb (path_exists w credentials_path) then
    failed ("Google credentials file not found: " ++ credentials_path)
  else
    match get_all_records w with
    | Raised e => failed ("Error loading from Google Sheets: " ++ snd e)
    | Ok rows => clear_and_process "Google Sheets" self rows
    end.

Definition _load_from_database (w : World) (self : LocationService) : run unit :=
  if falsy (DATABASE_URL w) then
    failed "Database URL not configured"
  else
    match read_sql w with
    | Raised e => failed ("Error loading from database: " ++ snd e)
    | Ok rows => clear_and_process "database" self rows
    end.

Definition load_locations (w : World) (self : LocationService)
  : run (list Location) :=
  let r :=
    if String.eqb (data_source_type self) "csv" then _load_from_csv w self
    else if String.eqb (data_source_type self) "google_sheets" then
      _load_from_google_sheets w self
    else if String.eqb (data_source_type self) "postgres" then
      _load_from_database w self
    else failed ("Unsupported data source type: " ++ data_source_type self) in
  match value r with
  | Ok _ =>
    let self' := set_last_loaded (final self r) (Some (utcnow w)) in
    {| states := states r ++ [self']; value := Ok (locations self') |}
  | Raised e =>
    {| states := states r;
       value := raise LocationServiceError ("Failed to load locations: " ++ snd e) |}
  end.

Definition reload_locations (w : World) (self : LocationService)
  : run (list Location) :=
  load_locations w self.
End Loader.

(** ** Configuration ([app/core/config.py]) *)

(** The validator of [DATA_SOURCE_TYPE]. *)
Definition validate_data_source_type (v : string) : result string :=
  if existsb (String.eqb v) ["csv"; "google_sheets"; "postgres"] then Ok v
  else raise ValueError "DATA_SOURCE_TYPE must be one of: csv, google_sheets, postgres".

(** ** Address input and match result ([app/models/location.py]) *)

(** A character that [\d] matches.  The characters of a [string] are
    the code points below 256, among which the decimal digits are
    [0] to [9]. *)
Definition is_digit (c : ascii) : bool :=
  let n := nat_of_ascii c in (48 <=? n)%nat && (n <=? 57)%nat.

(** [re.sub(r'\D', '', v)] *)
Fixpoint digits_only (v : string) : string :=
  match v with
  | EmptyString => EmptyString
  | String c v' => if is_digit c then String c (digits_only v') else digits_only v'
  end.

(** [AddressInput.validate_phone] *)
Definition validate_phone (v : option string) : result (option string) :=
  match v with
  | Some s =>
    let n := String.length (digits_only s) in
    if negb ((7 <=? n)%nat && (n <=? 15)%nat) then
      raise ValueError "Phone number must have between 7 and 15 digits"
    else Ok v
  | None => Ok v
  end.

Module AddressInput.
Record t : Type := {
  address : string;
  email : string;
  name : option string;
  phone : option string;
  application_id : option string;
  metadata : gmap string PyVal
}.
End AddressInput.

Module MatchResult.
Record t : Type := {
  input_address : string;
  geocoded_address : string;
  geocoded_coordinates : Coordinates;
  matched_location : Location;
  distance_km : Py.float;
  distance_miles : Py.float;
  processing_time_ms : Py.float;
  timestamp : datetime
}.
End MatchResult.

(** ** Routes ([app/api/routes/address_router.py]) *)

(** What a route handler does: it returns a body or raises
    [HTTPException]. *)
Inductive http (A : Type) : Type :=
| Respond (a : A)
| HTTPException (status_code : Z) (detail : string).

Arguments Respond {A} a.
Arguments HTTPException {A} status_code detail.

(** What [geocoding_service.geocode_address] does with an address: it
    returns coordinates and a formatted address, raises
    [GeocodingError], or raises something else. *)
Inductive Geocode : Type :=
| Geocoded (coords : Coordinates) (formatted_address : string)
| GeocodingError (msg : string)
| GeocodeFailure (msg : string).

(** A queued [send_match_notification] with its arguments. *)
Record Task : Type := {
  task_match_result : MatchResult.t;
  task_address_input : AddressInput.t
}.

(** The dependency of every route: a new service, loaded because a new
    service holds no hubs. *)
Definition get_location_service (lib : PyLib) (w : World) (DATA_SOURCE_TYPE : string)
  : result LocationService :=
  let service := init DATA_SOURCE_TYPE in
  match locations service with
  | [] =>
    let r := load_locations lib w service in
    match value r with
    | Ok _ => Ok (final service r)
    | Raised e => Raised e
    end
  | _ :: _ => Ok service
  end.

(** [GET /locations] *)
Definition get_locations (location_service : LocationService) (active_only : bool)
  (reg : option string) : http (list Location) :=
  let locs := locations location_service in
  let locs := if active_only then List.filter active locs else locs in
  let locs :=
    if negb (falsy reg) then
      List.filter (fun loc => option_string_eqb (region loc) (default "" reg)) locs
    else locs in
  Respond locs.

(** [GET /locations/{location_id}] *)
Definition get_location (location_id : string) (location_service : LocationService)
  : http Location :=
  match get_location_by_id location_service location_id with
  | None => HTTPException 404 ("Location with ID " ++ location_id ++ " not found")
  | Some location => Respond location
  end.

(** [GET /locations/stats] *)
Definition get_location_stats (location_service : LocationService) : http Counts :=
  Respond (get_locations_count location_service).

Section Matching.
Variable haversine : Py.float * Py.float -> Py.float * Py.float -> Py.float.
(** [distance_km * 0.621371], a float multiplication. *)
Variable to_miles : Py.float -> Py.float.

(** [POST /match].  [elapsed_ms] is [(time.time() - start_time) * 1000]
    and [now] is [datetime.utcnow()], both read before the result is
    built.  The handler returns its response and the background tasks. *)
Definition match_address (address_input : AddressInput.t) (background_tasks : list Task)
  (geocoding_service : string -> Geocode) (location_service : LocationService)
  (send_notification : bool) (elapsed_ms : Py.float) (now : datetime)
  : http MatchResult.t * list Task :=
  match geocoding_service (AddressInput.address address_input) with
  | Geocoded coords formatted_address =>
    match find_nearest_location haversine location_service coords with
    | Ok (nearest_location, distance_km) =>
      let match_result :=
        {| MatchResult.input_address := AddressInput.address address_input;
           MatchResult.geocoded_address := formatted_address;
           MatchResult.geocoded_coordinates := coords;
           MatchResult.matched_location := nearest_location;
           MatchResult.distance_km := distance_km;
           MatchResult.distance_miles := to_miles distance_km;
           MatchResult.processing_time_ms := elapsed_ms;
           MatchResult.timestamp := now |} in
      let background_tasks :=
        if send_notification then
          (background_tasks ++ [{| task_match_result := match_result;
                                   task_address_input := address_input |}])%list
        else background_tasks in
      (Respond match_result, background_tasks)
    | Raised (LocationServiceError, msg) =>
      (HTTPException 500 ("Location service error: " ++ msg), background_tasks)
    | Raised (_, msg) =>
      (HTTPException 500 ("Unexpected error: " ++ msg), background_tasks)
    end
  | GeocodingError msg =>
    (HTTPException 400 ("Geocoding error: " ++ msg), background_tasks)
  | GeocodeFailure msg =>
    (HTTPException 500 ("Unexpected error: " ++ msg), background_tasks)
  end.

(** The loop of [POST /match/batch] from the [i]-th address on: an
    address whose processing raises anything is logged and skipped.
    [now i] is the clock reading while the [i]-th address is processed. *)
Fixpoint batch_loop (addresses : list AddressInput.t) (i : nat)
  (results : list MatchResult.t) (background_tasks : list Task)
  (geocoding_service : string -> Geocode) (location_service : LocationService)
  (send_notification : bool) (now : nat -> datetime)
  : list MatchResult.t * list Task :=
  match addresses with
  | [] => (results, background_tasks)
  | address_input :: addresses' =>
    match geocoding_service (AddressInput.address address_input) with
    | Geocoded coords formatted_address =>
      match find_nearest_location haversine location_service coords with
      | Ok (nearest_location, distance_km) =>
        let match_result :=
          {| MatchResult.input_address := AddressInput.address address_input;
             MatchResult.geocoded_address := formatted_address;
             MatchResult.geocoded_coordinates := coords;
             MatchResult.matched_location := nearest_location;
             MatchResult.distance_km := distance_km;
             MatchResult.distance_miles := to_miles distance_km;
             MatchResult.processing_time_ms := 0%Q;
             MatchResult.timestamp := now i |} in
        batch_loop addresses' (S i) (results ++ [match_result])%list
          (if send_notification then
             (background_tasks ++ [{| task_match_result := match_result;
                                      task_address_input := address_input |}])%list
           else background_tasks)
          geocoding_service location_service send_notification now
      | Raised _ =>
        batch_loop addresses' (S i) results background_tasks
          geocoding_service location_service send_notification now
      end
    | GeocodingError _ | GeocodeFailure _ =>
      batch_loop addresses' (S i) results background_tasks
        geocoding_service location_service send_notification now
    end
  end.

(** [POST /match/batch] *)
Definition batch_match_addresses (addresses : list AddressInput.t)
  (background_tasks : list Task) (geocoding_service : string -> Geocode)
  (location_service : LocationService) (send_notification : bool)
  (max_batch_size : Z) (now : nat -> datetime)
  : http (list MatchResult.t) * list Task :=
  if (Z.of_nat (length addresses) >? max_batch_size)%Z then
    (HTTPException 400 ("Batch size exceeds maximum of " ++ pretty max_batch_size),
     background_tasks)
  else
    let '(results, background_tasks) :=
      batch_loop addresses 0 [] background_tasks geocoding_service location_service
        send_notification now in
    (Respond results, background_tasks).
End Matching.

(** ** The generic webhook ([app/api/routes/webhook_router.py]) *)

(** The JSON body of the 200 response of a webhook. *)
Record WebhookResponse : Type := {
  response_status : string;
  response_message : string;
  response_matched_location : string;
  response_processing_time_ms : Py.float
}.

Definition is_ascii (s : string) : bool :=
  forallb (fun c => (nat_of_ascii c <? 128)%nat) (list_ascii_of_string s).

(** [hmac.compare_digest(a, b)] on strings: a [TypeError] ([None])
    unless both are ASCII. *)
Definition compare_digest (a b : string) : option bool :=
  if is_ascii a && is_ascii b then Some (String.eqb a b) else None.

Section Webhook.
Variable haversine : Py.float * Py.float -> Py.float * Py.float -> Py.float.
Variable to_miles : Py.float -> Py.float.
(** A value of the JSON payload. *)
Variable Any : Type.
(** pydantic's validation of the arguments of [AddressInput(...)]
    (address, email, name, phone, application_id, metadata), before the
    [phone] validator of the model runs; a failure is its
    [ValidationError], a [ValueError]. *)
Variable parse_address_input :
  Any -> Any -> option Any -> option Any -> option Any -> option Any ->
  result AddressInput.t.
(** The hex digest of the HMAC-SHA256 of
    [json.dumps(payload, sort_keys=True)] under the secret; [None] when
    computing it raises. *)
Variable payload_digest : string -> gmap string Any -> option string.
(** [str(e)] of an [HTTPException]. *)
Variable str_HTTPException : Z -> string -> string.

(** [_validate_generic_signature] *)
Definition _validate_generic_signature (WEBHOOK_SECRET : option string)
  (payload : gmap string Any) (signature : string) : bool :=
  if falsy WEBHOOK_SECRET then true
  else
    match payload_digest (default "" WEBHOOK_SECRET) payload with
    | Some calculated_signature =>
      match compare_digest calculated_signature signature with
      | Some b => b
      | None => false
      end
    | None => false
    end.

(** [payload[key]]; [str] of its [KeyError] is the quoted key. *)
Definition payload_getitem (payload : gmap string Any) (key : string) : result Any :=
  match payload !! key with
  | Some v => Ok v
  | None => raise KeyError ("'" ++ key ++ "'")
  end.

(** The [AddressInput(...)] expression of the handler. *)
Definition address_input_of_payload (payload : gmap string Any)
  : result AddressInput.t :=
  address_arg ← payload_getitem payload "address";
  email_arg ← payload_getitem payload "email";
  address_input ← parse_address_input address_arg email_arg (payload !! "name")
                    (payload !! "phone") (payload !! "application_id")
                    (payload !! "metadata");
  _ ← validate_phone (AddressInput.phone address_input);
  Ok address_input.

(** What the last handler of the outer [try], [except Exception], makes
    of an [HTTPException] raised inside it. *)
Definition rewrapped {A : Type} (status_code : Z) (detail : string) : http A :=
  HTTPException 500 ("Unexpected error: " ++ str_HTTPException status_code detail).

(** [POST /webhooks/generic] *)
Definition handle_generic_webhook (WEBHOOK_SECRET : option string)
  (payload : gmap string Any) (background_tasks : list Task)
  (geocoding_service : string -> Geocode) (location_service : LocationService)
  (x_webhook_signature : option string) (elapsed_ms : Py.float) (now : datetime)
  : http WebhookResponse * list Task :=
  if negb (falsy WEBHOOK_SECRET) && falsy x_webhook_signature then
    (HTTPException 401 "Missing webhook signature", background_tasks)
  else if negb (falsy WEBHOOK_SECRET)
          && negb (_validate_generic_signature WEBHOOK_SECRET payload
                     (default "" x_webhook_signature)) then
    (HTTPException 401 "Invalid webhook signature", background_tasks)
  else
    match address_input_of_payload payload with
    | Raised (KeyError, msg) =>
      (rewrapped 400 ("Missing required field: " ++ msg), background_tasks)
    | Raised (ValueError, msg) =>
      (rewrapped 400 ("Invalid data: " ++ msg), background_tasks)
    | Raised (_, msg) =>
      (HTTPException 500 ("Unexpected error: " ++ msg), background_tasks)
    | Ok address_input =>
      match geocoding_service (AddressInput.address address_input) with
      | Geocoded coords formatted_address =>
        match find_nearest_location haversine location_service coords with
        | Ok (nearest_location, distance_km) =>
          let match_result :=
            {| MatchResult.input_address := AddressInput.address address_input;
               MatchResult.geocoded_address := formatted_address;
               MatchResult.geocoded_coordinates := coords;
               MatchResult.matched_location := nearest_location;
               MatchResult.distance_km := distance_km;
               MatchResult.distance_miles := to_miles distance_km;
               MatchResult.processing_time_ms := elapsed_ms;
               MatchResult.timestamp := now |} in
          (Respond {| response_status := "success";
                      response_message := "Webhook processed successfully";
                      response_matched_location := name nearest_location;
                      response_processing_time_ms := elapsed_ms |},
           (background_tasks ++ [{| task_match_result := match_result;
                                    task_address_input := address_input |}])%list)
        | Raised (LocationServiceError, msg) =>
          (HTTPException 500 ("Location service error: " ++ msg), background_tasks)
        | Raised (_, msg) =>
          (HTTPException 500 ("Unexpected error: " ++ msg), background_tasks)
        end
      | GeocodingError msg =>
        (HTTPException 400 ("Geocoding error: " ++ msg), background_tasks)
      | GeocodeFailure msg =>
        (HTTPException 500 ("Unexpected error: " ++ msg), background_tasks)
      end
    end.
End Webhook.

(** The digest as [webhook_router.py] computes it: the module calls
    [json.dumps] without importing [json], so the computation raises
    [NameError] for every secret and payload, inside the [try] of
    [_validate_generic_signature]. *)
Definition digest_without_json {Any : Type} (secret : string) (payload : gmap string Any)
  : option string :=
  None.

(** ** The great-circle distance of the specification *)

Module Spherical.

Definition radians (degrees : R) : R := (degrees * PI / 180)%R.

(** [atan2(y, x)] *)
Definition atan2 (y x : R) : R :=
  (if Rlt_dec 0 x then atan (y / x)
   else if Rlt_dec x 0 then
     if Rle_dec 0 y then atan (y / x) + PI else atan (y / x) - PI
   else if Rlt_dec 0 y then PI / 2
   else if Rlt_dec y 0 then - (PI / 2)
   else 0)%R.

(** Modelled from the spec: [haversine] of the package [haversine],
    which is not in src/, by the formula of section 4.2 with the Earth
    radius 6371.0088 km, over the real numbers: the rounding of the
    floating-point operations is not modelled.  A point is (latitude,
    longitude) in degrees. *)
Definition haversine (point1 point2 : R * R) : R :=
  let lat1 := radians (fst point1) in
  let lon1 := radians (snd point1) in
  let lat2 := radians (fst point2) in
  let lon2 := radians (snd point2) in
  let a := ((sin ((lat2 - lat1) / 2))² + cos lat1 * cos lat2 * (sin ((lon2 - lon1) / 2))²)%R in
  let c := (2 * atan2 (sqrt a) (sqrt (1 - a)))%R in
  (6371.0088 * c)%R.

(** [calculate_distance] over that [haversine]. *)
Definition calculate_distance (point1 point2 : Coordinates) : R :=
  let coord1 := (Q2R (latitude point1), Q2R (longitude point1)) in
  let coord2 := (Q2R (latitude point2), Q2R (longitude point2)) in
  haversine coord1 coord2.

End Spherical.

(** ** Sample data

    A stand-in for the library functions and a few registries, used to
    run the definitions on concrete inputs. *)

Module Sample.

(** A planar stand-in for the great-circle distance. *)
Definition taxicab (p q : Py.float * Py.float) : Py.float :=
  (Qabs (fst p - fst q) + Qabs (snd p - snd q))%Q.

Definition digit_of (c : ascii) : option Z :=
  let n := nat_of_ascii c in
  if (48 <=? n)%nat && (n <=? 57)%nat then Some (Z.of_nat (n - 48)) else None.

(** Reads a run of digits: their value, how many there were, the rest. *)
Fixpoint read_digits (s : string) (acc : Z) (n : nat) : Z * nat * string :=
  match s with
  | String c s' =>
    match digit_of c with
    | Some d => read_digits s' (10 * acc + d)%Z (S n)
    | None => (acc, n, s)
    end
  | EmptyString => (acc, n, s)
  end.

Definition unsigned_decimal (s : string) : option Q :=
  let '(i, ni, rest) := read_digits s 0%Z 0%nat in
  match rest with
  | EmptyString => if (ni =? 0)%nat then None else Some (inject_Z i)
  | String "."%char rest' =>
    let '(f, nf, rest'') := read_digits rest' 0%Z 0%nat in
    match rest'' with
    | EmptyString =>
      if (ni + nf =? 0)%nat then None
      else Some (inject_Z i + Qmake f (Z.to_pos (10 ^ Z.of_nat nf)))%Q
    | String _ _ => None
    end
  | String _ _ => None
  end.

(** Plain decimal literals, read exactly. *)
Definition decimal (s : string) : option PyFloat :=
  match s with
  | String "-"%char s' => option_map (fun q => Fin (- q)) (unsigned_decimal s')
  | _ => option_map Fin (unsigned_decimal s)
  end.

Definition show (v : PyVal) : string :=
  match v with
  | PyStr s => s
  | PyInt z => pretty z
  | PyFloatV (Fin q) => pretty (Qnum q) ++ "/" ++ pretty (Z.pos (Qden q))
  | PyFloatV PosInf => "inf"
  | PyFloatV NegInf => "-inf"
  | PyFloatV NaN => "nan"
  | PyBool true => "True"
  | PyBool false => "False"
  | PyNone => "None"
  end.

(** Strings pass, numbers are rendered, anything else is refused. *)
Definition coerce_str (v : PyVal) : option string :=
  match v with
  | PyStr s => Some s
  | PyInt _ | PyFloatV _ => Some (show v)
  | PyBool _ | PyNone => None
  end.

Definition lib : PyLib :=
  {| float_of_str := decimal; py_str := show; str_validator := coerce_str |}.

Definition hub (i : string) (lat lon : Q) (act : bool) : Location :=
  {| id := Some i; name := "Hub " ++ i; address := i ++ " Main St";
     city := None; state := None; postal_code := None; country := None;
     coordinates := {| latitude := lat; longitude := lon |};
     region := None; type := None; active := act |}.

Arguments hub i (lat lon)%_Q act.

Definition service (l : list Location) : LocationService :=
  {| locations := l; last_loaded := Some 1%Z; data_source_type := "csv" |}.

Definition hubA : Location := hub "A" 0 0 true.
Definition hubB : Location := hub "B" 0 1 true.
Definition hubC : Location := hub "C" 0 10 true.
(** An inactive hub at the query point. *)
Definition hubX : Location := hub "X" 0 (1 # 4) false.
(** A second hub at the position of [hubA]. *)
Definition hubA' : Location := hub "A2" 0 0 true.

(** One inactive hub nearest to the query point, then three active ones. *)
Definition registry : LocationService := service [hubX; hubA; hubB; hubC].

(** Two active hubs at the same place after a farther one. *)
Definition tied_registry : LocationService := service [hubC; hubA; hubA'].

Definition query : Coordinates := {| latitude := 0%Q; longitude := (1 # 4)%Q |}.

Definition row (i lat lon : string) : Row :=
  list_to_map [("id", PyStr i); ("name", PyStr ("Hub " ++ i));
               ("address", PyStr (i ++ " Main St"));
               ("latitude", PyStr lat); ("longitude", PyStr lon)].

Definition rows_before : list Row :=
  [row "1" "41.5" "-87.5"; row "2" "39.75" "-89.5"].

Definition bad_row : Row := row "3" "north" "-88.0".

Definition rows_after : list Row :=
  [row "4" "40.0" "-88.25"; row "5" "-33.5" "151.0"].

(** Five records, the third with a latitude that is not a number. *)
Definition five_rows : list Row := rows_before ++ bad_row :: rows_after.

Definition csv_world (rows : result (list Row)) (present : bool) : World :=
  {| CSV_FILE_PATH := "data/locations.csv";
     GOOGLE_SHEETS_ID := None;
     GOOGLE_CREDENTIALS_JSON := "credentials.json";
     DATABASE_URL := None;
     DATABASE_TABLE := "delivery_locations";
     path_exists := fun _ => present;
     read_csv := fun _ => rows;
     get_all_records := raise OtherException "no spreadsheet";
     read_sql := raise OtherException "no database";
     utcnow := 2%Z |}.

(** The CSV file holds the five records. *)
Definition loaded_world : World := csv_world (Ok five_rows) true.

(** The hubs of the four well-formed records among the five. *)
Definition four_hubs : list Location :=
  [hub "1" 41.5 (-87.5) true; hub "2" 39.75 (-89.5) true;
   hub "4" 40.0 (-88.25) true; hub "5" (-33.5) 151.0 true].

(** A record whose latitude is an integer far above 90. *)
Definition huge_row : Row := <["latitude" := PyInt (10 ^ 400)]> (row "3" "0.0" "-88.0").

(** Five records, the third with that latitude. *)
Definition huge_rows : list Row := rows_before ++ huge_row :: rows_after.

Definition huge_world : World := csv_world (Ok huge_rows) true.

(** A record whose name cell is empty in the CSV file. *)
Definition unnamed_row : Row := <["name" := PyFloatV NaN]> (row "6" "10.5" "20.25").

(** The CSV file is missing. *)
Definition missing_world : World := csv_world (Ok five_rows) false.

Definition missing_error : exn :=
  (LocationServiceError, "CSV file not found: data/locations.csv").

(** A geocoder that knows two addresses. *)
Definition geocoder (address : string) : Geocode :=
  if String.eqb address "1 Equator Rd" then Geocoded query "1 Equator Road"
  else if String.eqb address "" then GeocodeFailure "empty address"
  else GeocodingError ("No geocoding results found for address: " ++ address).

Definition applicant (address : string) : AddressInput.t :=
  {| AddressInput.address := address;
     AddressInput.email := "applicant@example.com";
     AddressInput.name := None;
     AddressInput.phone := Some "555-123-4567";
     AddressInput.application_id := None;
     AddressInput.metadata := ∅ |}.

(** Miles as an exact product, for the examples only. *)
Definition miles (km : Q) : Q := (km * 0.621371)%Q.

Definition text_of (v : option PyVal) : result (option string) :=
  match v with
  | None => Ok None
  | Some (PyStr s) => Ok (Some s)
  | Some _ => raise ValueError "str type expected"
  end.

(** Accepts text fields only, and any text with an [@] as an email. *)
Definition parse_input (address email : PyVal) (name phone application_id
  metadata : option PyVal) : result AddressInput.t :=
  match address, email with
  | PyStr a, PyStr e =>
    if existsb (Ascii.eqb "@"%char) (list_ascii_of_string e) then
      name' ← text_of name;
      phone' ← text_of phone;
      id' ← text_of application_id;
      Ok {| AddressInput.address := a; AddressInput.email := e;
            AddressInput.name := name'; AddressInput.phone := phone';
            AddressInput.application_id := id'; AddressInput.metadata := ∅ |}
    else raise ValueError "value is not a valid email address"
  | _, _ => raise ValueError "str type expected"
  end.

Definition str_http (status_code : Z) (detail : string) : string :=
  pretty status_code ++ ": " ++ detail.

Definition good_payload : gmap string PyVal :=
  list_to_map [("address", PyStr "1 Equator Rd"); ("email", PyStr "a@example.com")].

(** A payload without an address. *)
Definition bad_payload : gmap string PyVal :=
  list_to_map [("email", PyStr "a@example.com")].

(** The two hubs nearest to [query] in [registry], with their distances. *)
Definition nearest_two : list (Location * Q) :=
  [(hubA, (1 # 4)%Q); (hubB, (3 # 4)%Q)].

(** [registry] without its inactive hub. *)
Definition active_registry : LocationService := service [hubA; hubB; hubC].

(** A registry with no active hub. *)
Definition idle_registry : LocationService := service [hubX].

(** A record whose [active] cell is the text [no]. *)
Definition row_marked_no : Row := <["active" := PyStr "no"]> (row "7" "10.5" "20.25").

Definition batch_of_three : list AddressInput.t :=
  [applicant "1 Equator Rd"; applicant "nowhere"; applicant "1 Equator Rd"].

End Sample.

(** * Vocabulary of the properties *)

Open Scope list_scope.

Section KeyedSpec.
Context {A : Type} (key : A -> Q).

(** [h] is the first item of [l] with the least key. *)
Definition first_least (h : A) (l : list A) : Prop :=
  exists pre post, l = pre ++ h :: post
    /\ Forall (fun x => key h < key x)%Q pre
    /\ Forall (fun x => key h <= key x)%Q post.

Definition le_key (a b : A) : Prop := (key a <= key b)%Q.

(** The items whose key is (floating-point) equal to [d]. *)
Definition same_key (d : Q) (x : A) : bool := Qeq_bool (key x) d.
End KeyedSpec.

(** What the configured source hands to the row loop, or the
    [LocationServiceError] the loader raises before it touches the
    registry: the guards and the read that precede [self.locations = []]
    in the three loaders, and the final [else] of [load_locations]. *)
Definition read_source (w : World) (self : LocationService) : result (list Row) :=
  if String.eqb (data_source_type self) "csv" then
    if negb (path_exists w (CSV_FILE_PATH w)) then
      raise LocationServiceError ("CSV file not found: " ++ CSV_FILE_PATH w)%string
    else
      match read_csv w (CSV_FILE_PATH w) with
      | Raised e => raise LocationServiceError ("Error loading from CSV: " ++ snd e)%string
      | Ok rows => Ok rows
      end
  else if String.eqb (data_source_type self) "google_sheets" then
    if falsy (GOOGLE_SHEETS_ID w) then
      raise LocationServiceError "Google Sheets ID not configured"
    else if negb (path_exists w (GOOGLE_CREDENTIALS_JSON w)) then
      raise LocationServiceError
        ("Google credentials file not found: " ++ GOOGLE_CREDENTIALS_JSON w)%string
    else
      match get_all_records w with
      | Raised e =>
        raise LocationServiceError ("Error loading from Google Sheets: " ++ snd e)%string
      | Ok rows => Ok rows
      end
  else if String.eqb (data_source_type self) "postgres" then
    if falsy (DATABASE_URL w) then
      raise LocationServiceError "Database URL not configured"
    else
      match read_sql w with
      | Raised e =>
        raise LocationServiceError ("Error loading from database: " ++ snd e)%string
      | Ok rows => Ok rows
      end
  else
    raise LocationServiceError
      ("Unsupported data source type: " ++ data_source_type self)%string.

(** A row-level outcome that never leaves the row loop. *)
Definition skippable {A : Type} (r : result A) : Prop :=
  match r with
  | Ok _ => True
  | Raised (c, _) => c = KeyError \/ c = ValueError
  end.

(** The lists a list passes through while [hubs] are appended to it one
    at a time. *)
Fixpoint grow (acc hubs : list Location) : list (list Location) :=
  match hubs with
  | [] => []
  | h :: hs => (acc ++ [h]) :: grow (acc ++ [h]) hs
  end.

(** No caller that reads the registry during the call sees anything but
    the list from before the call or the list the call leaves. *)
Definition published_once {A : Type} (self : LocationService) (r : run A) : Prop :=
  forall st, In st (states r) ->
    locations st = locations self \/ locations st = locations (final self r).

(** How the wrapping exception of each loader names its source. *)
Definition source_name (DATA_SOURCE_TYPE : string) : string :=
  if String.eqb DATA_SOURCE_TYPE "csv" then "CSV"%string
  else if String.eqb DATA_SOURCE_TYPE "google_sheets" then "Google Sheets"%string
  else "database"%string.

(** A cell that [float] refuses with an exception that is not a
    [ValueError]: [None], or an integer too large for a float. *)
Definition unconvertible (v : PyVal) : Prop :=
  v = PyNone \/ exists z, v = PyInt z /\ overflows z = true.

(** [float] is applied to the latitude cell and then to the longitude
    cell of a row without raising anything but [ValueError]. *)
Definition convertible_coordinates (row : Row) : Prop :=
  forall v, row !! "latitude" = Some v \/ row !! "longitude" = Some v -> ~ unconvertible v.

Section LoaderSpec.
Variable lib : PyLib.

(** The hubs of the rows that [make_location] accepts, in row order. *)
Fixpoint loaded_hubs (rows : list Row) : list Location :=
  match rows with
  | [] => []
  | row :: rows' =>
    match make_location lib row with
    | Ok location => location :: loaded_hubs rows'
    | Raised _ => loaded_hubs rows'
    end
  end.

(** The exception that makes the row loop stop, if any: the first one
    that is neither a [KeyError] nor a [ValueError]. *)
Fixpoint first_abort (rows : list Row) : option exn :=
  match rows with
  | [] => None
  | row :: rows' =>
    match make_location lib row with
    | Ok _ => first_abort rows'
    | Raised (KeyError, _) => first_abort rows'
    | Raised (ValueError, _) => first_abort rows'
    | Raised e => Some e
    end
  end.

(** The rows the loop gets through: all of them, or those before the
    row that makes it stop. *)
Fixpoint processed (rows : list Row) : list Row :=
  match rows with
  | [] => []
  | row :: rows' =>
    match make_location lib row with
    | Ok _ => row :: processed rows'
    | Raised (KeyError, _) => row :: processed rows'
    | Raised (ValueError, _) => row :: processed rows'
    | Raised _ => []
    end
  end.

(** What a load returns or raises once its source has delivered [rows]. *)
Definition load_value (DATA_SOURCE_TYPE : string) (rows : list Row)
  : result (list Location) :=
  match first_abort rows with
  | None => Ok (loaded_hubs rows)
  | Some e =>
    raise LocationServiceError
      ("Failed to load locations: Error loading from "
       ++ source_name DATA_SOURCE_TYPE ++ ": " ++ snd e)%string
  end.

(** The service as such a load leaves it. *)
Definition load_leaves (w : World) (self : LocationService) (rows : list Row)
  : LocationService :=
  match first_abort rows with
  | None =>
    {| locations := loaded_hubs rows; last_loaded := Some (utcnow w);
       data_source_type := data_source_type self |}
  | Some _ => set_locations self (loaded_hubs (processed rows))
  end.

(** A row that makes the row loop stop: it has a name and an address,
    and [float] refuses its latitude, or converts its latitude and
    refuses its longitude, with an exception that is not a
    [ValueError]. *)
Definition aborting_row (row : Row) : Prop :=
  row !! "name" <> None /\ row !! "address" <> None
  /\ exists vlat, row !! "latitude" = Some vlat
       /\ (unconvertible vlat
           \/ ((exists lat, py_float lib vlat = Ok lat)
               /\ exists vlon, row !! "longitude" = Some vlon /\ unconvertible vlon)).

Definition missing_required (row : Row) : Prop :=
  row !! "name" = None \/ row !! "address" = None
  \/ row !! "latitude" = None \/ row !! "longitude" = None.

(** A cell holding text that [float] does not read as a number. *)
Definition non_numeric (v : PyVal) : Prop :=
  exists s, v = PyStr s /\ float_of_str lib s = None.

(** A cell holding a number that is not within [lo, hi]: a finite one
    outside the bounds, an infinity or a NaN. *)
Definition out_of_range (lo hi : Q) (v : PyVal) : Prop :=
  exists x, py_float lib v = Ok x
    /\ match x with
       | Fin q => ~ (lo <= q <= hi)%Q
       | PosInf | NegInf | NaN => True
       end.

Definition bad_coordinate (lo hi : Q) (v : PyVal) : Prop :=
  non_numeric v \/ out_of_range lo hi v.

Definition malformed (row : Row) : Prop :=
  missing_required row
  \/ (exists v, row !! "latitude" = Some v /\ bad_coordinate (-90) 90 v)
  \/ (exists v, row !! "longitude" = Some v /\ bad_coordinate (-180) 180 v).
End LoaderSpec.

(** The addresses of a batch that the geocoder resolves. *)
Definition geocodes (geocoding_service : string -> Geocode) (a : AddressInput.t) : bool :=
  match geocoding_service (AddressInput.address a) with
  | Geocoded _ _ => true
  | GeocodingError _ | GeocodeFailure _ => false
  end.

(** The signature check of the generic webhook lets the request
    through: no secret is configured, or a signature is given and it is
    the digest of the payload. *)
Definition signature_accepted {Any : Type}
  (payload_digest : string -> gmap string Any -> option string)
  (WEBHOOK_SECRET : option string) (payload : gmap string Any)
  (x_webhook_signature : option string) : bool :=
  falsy WEBHOOK_SECRET
  || (negb (falsy x_webhook_signature)
      && _validate_generic_signature Any payload_digest WEBHOOK_SECRET payload
           (default "" x_webhook_signature)).

(** * Properties *)

(** ** The built-ins *)

Lemma ltb_lt (x y : Q) : Py.ltb x y = true <-> (x < y)%Q.
Proof.
  unfold Py.ltb. rewrite negb_true_iff. split.
  - intros H. apply Qnot_le_lt. intros Hle.
    apply Qle_bool_iff in Hle. congruence.
  - intros H. destruct (Qle_bool y x) eqn:E; [|reflexivity].
    apply Qle_bool_iff in E. lra.
Qed.

Lemma ltb_ge (x y : Q) : Py.ltb x y = false <-> (y <= x)%Q.
Proof.
  unfold Py.ltb. rewrite negb_false_iff. apply Qle_bool_iff.
Qed.

Section KeyedFacts.
Context {A : Type} (key : A -> Q).

Lemma min_scan_keep (h : A) (post : list A) :
  Forall (fun x => key h <= key x)%Q post -> Py.min_scan key h post = h.
Proof.
  induction 1 as [|x post Hx _ IH]; simpl; [reflexivity|].
  apply ltb_ge in Hx. rewrite Hx. exact IH.
Qed.

Lemma min_scan_first (h : A) (post pre : list A) (best : A) :
  (key h < key best)%Q ->
  Forall (fun x => key h < key x)%Q pre ->
  Forall (fun x => key h <= key x)%Q post ->
  Py.min_scan key best (pre ++ h :: post) = h.
Proof.
  intros Hb Hpre Hpost. revert best Hb.
  induction Hpre as [|x pre Hx _ IH]; intros best Hb; simpl.
  - apply ltb_lt in Hb. rewrite Hb. now apply min_scan_keep.
  - apply IH. destruct (Py.ltb (key x) (key best)); assumption.
Qed.

Lemma min_first_least (h : A) (l : list A) :
  first_least key h l -> Py.min key l = Some h.
Proof.
  intros (pre & post & -> & Hpre & Hpost).
  destruct pre as [|x pre]; simpl.
  - f_equal. now apply min_scan_keep.
  - f_equal. inversion Hpre; subst. now apply min_scan_first.
Qed.

Lemma min_scan_first_least (l : list A) (best : A) :
  first_least key (Py.min_scan key best l) (best :: l).
Proof.
  revert best. induction l as [|x l IH]; intros best; simpl.
  - exists [], []. repeat split; constructor.
  - destruct (Py.ltb (key x) (key best)) eqn:E.
    + apply ltb_lt in E.
      specialize (IH x). remember (Py.min_scan key x l) as m eqn:Hm. clear Hm.
      destruct IH as (pre & post & Heq & Hpre & Hpost).
      exists (best :: pre), post. rewrite <- app_comm_cons, <- Heq.
      repeat split; [|assumption].
      constructor; [|assumption].
      destruct pre as [|y pre]; simpl in Heq; injection Heq as -> ->.
      * exact E.
      * apply Forall_inv in Hpre. cbv beta in Hpre. lra.
    + apply ltb_ge in E.
      specialize (IH best). remember (Py.min_scan key best l) as m eqn:Hm. clear Hm.
      destruct IH as (pre & post & Heq & Hpre & Hpost).
      destruct pre as [|y pre]; simpl in Heq; injection Heq as -> ->.
      * exists [], (x :: post). repeat split; [constructor|].
        constructor; assumption.
      * exists (y :: x :: pre), post. repeat split; [|assumption].
        pose proof (Forall_inv Hpre) as Hy. apply Forall_inv_tail in Hpre.
        cbv beta in Hy.
        constructor; [assumption|]. constructor; [lra|assumption].
Qed.

Lemma min_exists (l : list A) :
  l <> [] -> exists h, Py.min key l = Some h /\ first_least key h l.
Proof.
  destruct l as [|x l]; [congruence|]. intros _.
  exists (Py.min_scan key x l). split; [reflexivity|].
  apply min_scan_first_least.
Qed.

Lemma first_least_In (h : A) (l : list A) : first_least key h l -> In h l.
Proof.
  intros (pre & post & -> & _). apply in_or_app. right. now left.
Qed.

Lemma first_least_le (h : A) (l : list A) :
  first_least key h l -> forall x, In x l -> (key h <= key x)%Q.
Proof.
  intros (pre & post & -> & Hpre & Hpost) x Hx.
  rewrite List.Forall_forall in Hpre, Hpost.
  apply in_app_or in Hx. destruct Hx as [Hx|[<-|Hx]].
  - apply Qlt_le_weak. now apply Hpre.
  - lra.
  - now apply Hpost.
Qed.

Lemma min_cons (x : A) (l : list A) :
  Py.min key (x :: l) =
  Some match Py.min key l with
       | None => x
       | Some m => if Py.ltb (key m) (key x) then m else x
       end.
Proof.
  destruct l as [|y l]; [reflexivity|].
  change (Py.min key (y :: l)) with (Some (Py.min_scan key y l)).
  pose proof (min_scan_first_least l y) as Hm.
  remember (Py.min_scan key y l) as m eqn:E. clear E.
  cbv iota beta. apply min_first_least.
  destruct (Py.ltb (key m) (key x)) eqn:E.
  - apply ltb_lt in E.
    destruct Hm as (pre & post & -> & Hpre & Hpost).
    exists (x :: pre), post. repeat split; [|assumption].
    constructor; assumption.
  - apply ltb_ge in E.
    exists [], (y :: l). repeat split; [constructor|].
    apply List.Forall_forall. intros z Hz.
    pose proof (first_least_le m (y :: l) Hm z Hz). lra.
Qed.

Lemma insert_perm (x : A) (l : list A) : Permutation (Py.insert key x l) (x :: l).
Proof.
  induction l as [|y l IH]; simpl; [reflexivity|].
  destruct (Py.ltb (key y) (key x)); [|reflexivity].
  rewrite IH. apply perm_swap.
Qed.

Lemma sorted_perm (l : list A) : Permutation (Py.sorted key l) l.
Proof.
  induction l as [|x l IH]; simpl; [reflexivity|].
  rewrite insert_perm. now constructor.
Qed.

Lemma sorted_length (l : list A) : length (Py.sorted key l) = length l.
Proof. apply Permutation_length, sorted_perm. Qed.

Lemma insert_sorted (x : A) (l : list A) :
  StronglySorted (le_key key) l -> StronglySorted (le_key key) (Py.insert key x l).
Proof.
  induction 1 as [|y l Hl IH Hy]; simpl.
  - constructor; constructor.
  - destruct (Py.ltb (key y) (key x)) eqn:E.
    + apply ltb_lt in E. constructor; [exact IH|].
      apply (Permutation_Forall (Permutation_sym (insert_perm x l))).
      constructor; [unfold le_key; lra|exact Hy].
    + apply ltb_ge in E. constructor; [now constructor|].
      constructor; [exact E|].
      eapply List.Forall_impl; [|exact Hy].
      unfold le_key. intros z Hz. lra.
Qed.

Lemma sorted_sorted (l : list A) : StronglySorted (le_key key) (Py.sorted key l).
Proof.
  induction l as [|x l IH]; simpl; [constructor|].
  now apply insert_sorted.
Qed.

Lemma insert_same_key (d : Q) (x : A) (l : list A) :
  List.filter (same_key key d) (Py.insert key x l) =
  List.filter (same_key key d) (x :: l).
Proof.
  induction l as [|y l IH]; [reflexivity|].
  cbn [Py.insert]. destruct (Py.ltb (key y) (key x)) eqn:E; [|reflexivity].
  apply ltb_lt in E. cbn [List.filter] in *. rewrite IH.
  destruct (same_key key d x) eqn:Ex, (same_key key d y) eqn:Ey; try reflexivity.
  unfold same_key in Ex, Ey. apply Qeq_bool_iff in Ex, Ey. lra.
Qed.

Lemma sorted_stable (d : Q) (l : list A) :
  List.filter (same_key key d) (Py.sorted key l) = List.filter (same_key key d) l.
Proof.
  induction l as [|x l IH]; [reflexivity|].
  cbn [Py.sorted]. rewrite insert_same_key. cbn [List.filter].
  now rewrite IH.
Qed.

Lemma head_insert (x : A) (l : list A) :
  hd_error (Py.insert key x l) =
  Some match hd_error l with
       | None => x
       | Some y => if Py.ltb (key y) (key x) then y else x
       end.
Proof.
  destruct l as [|y l]; simpl; [reflexivity|].
  now destruct (Py.ltb (key y) (key x)).
Qed.

(** The first item of the sorted list is the one [min] selects. *)
Lemma head_sorted (l : list A) : hd_error (Py.sorted key l) = Py.min key l.
Proof.
  induction l as [|x l IH]; [reflexivity|].
  cbn [Py.sorted]. now rewrite head_insert, IH, min_cons.
Qed.
End KeyedFacts.

Lemma slice_to_nonneg {A : Type} (l : list A) (n : Z) :
  (0 <= n)%Z -> Py.slice_to l n = firstn (Z.to_nat n) l.
Proof.
  intros H. unfold Py.slice_to.
  destruct (0 <=? n)%Z eqn:E; [reflexivity|]. lia.
Qed.

Lemma head_firstn {A : Type} (l : list A) (k : nat) :
  (0 < k)%nat -> hd_error (firstn k l) = hd_error l.
Proof.
  destruct k; [lia|]. now destruct l.
Qed.

Lemma firstn_strongly_sorted {A : Type} (R : A -> A -> Prop) (k : nat) (l : list A) :
  StronglySorted R l -> StronglySorted R (firstn k l).
Proof.
  intros H. revert k. induction H as [|x l Hl IH Hx]; intros [|k]; simpl;
    try constructor.
  - apply IH.
  - rewrite List.Forall_forall in *. intros y Hy. apply Hx.
    rewrite <- (firstn_skipn k l). apply in_or_app. now left.
Qed.

(** ** The resolver *)

Section ResolverFacts.
Variable haversine : Py.float * Py.float -> Py.float * Py.float -> Py.float.

Abbreviation nearest := (find_nearest_location haversine).
Abbreviation nearestN := (find_nearest_n_locations haversine).
Abbreviation active_of := active_locations.
Abbreviation dist := (calculate_distance haversine).
Abbreviation pairs c self := (List.map (with_distance haversine c) (active_of self)).

Lemma active_locations_In (self : LocationService) (h : Location) :
  In h (active_of self) <-> In h (locations self) /\ active h = true.
Proof. apply filter_In. Qed.

Lemma with_distance_eq (c : Coordinates) (h : Location) :
  with_distance haversine c h = (h, dist c (coordinates h)).
Proof. reflexivity. Qed.

Lemma find_nearest_location_eq (self : LocationService) (c : Coordinates) :
  active_of self <> [] ->
  nearest self c =
  match Py.min snd (pairs c self) with
  | Some r => Ok r
  | None => raise ValueError "min() arg is an empty sequence"
  end.
Proof.
  unfold find_nearest_location, active_locations.
  destruct (locations self) as [|x l]; [simpl; congruence|].
  destruct (List.filter active (x :: l)); [congruence|reflexivity].
Qed.

Lemma find_nearest_n_locations_eq (self : LocationService) (c : Coordinates) (n : Z) :
  active_of self <> [] ->
  nearestN self c n = Ok (Py.slice_to (Py.sorted snd (pairs c self)) n).
Proof.
  unfold find_nearest_n_locations, active_locations.
  destruct (locations self) as [|x l]; [simpl; congruence|].
  destruct (List.filter active (x :: l)); [congruence|reflexivity].
Qed.

Lemma pairs_nonempty (self : LocationService) (c : Coordinates) :
  active_of self <> [] -> pairs c self <> [].
Proof. destruct (active_of self); [congruence|discriminate]. Qed.

(** C1: when some hub is active, [find_nearest_location] returns a hub
    of the registry that is active, together with its distance from
    the query point, and no active hub of the registry is strictly
    nearer. *)
Theorem find_nearest_location_nearest (self : LocationService) (c : Coordinates) :
  active_of self <> [] ->
  exists hub d,
    nearest self c = Ok (hub, d)
    /\ In hub (locations self)
    /\ active hub = true
    /\ d = dist c (coordinates hub)
    /\ forall h, In h (locations self) -> active h = true ->
         ~ (dist c (coordinates h) < d)%Q.
Proof.
  intros Hact.
  destruct (min_exists snd (pairs c self) (pairs_nonempty self c Hact))
    as ([hub d] & Hmin & Hleast).
  exists hub, d. rewrite (find_nearest_location_eq self c Hact), Hmin.
  pose proof (first_least_In snd _ _ Hleast) as Hin.
  apply in_map_iff in Hin. destruct Hin as (h0 & Heq & Hin0).
  rewrite with_distance_eq in Heq. injection Heq as -> <-.
  apply active_locations_In in Hin0. destruct Hin0 as [Hin0 Ha].
  repeat split; try assumption.
  intros h Hh Hha Hlt.
  assert (In (with_distance haversine c h) (pairs c self)) as Hp.
  { apply in_map, active_locations_In. now split. }
  pose proof (first_least_le snd _ _ Hleast _ Hp) as Hle.
  rewrite with_distance_eq in Hle. simpl in Hle. lra.
Qed.

(** C2: both searches raise [LocationServiceError] exactly when no hub
    of the registry is active (an empty registry included), and
    otherwise they return a result. *)
Theorem no_candidates_error (self : LocationService) (c : Coordinates) (n : Z) :
  (raises LocationServiceError (nearest self c) <-> active_of self = [])
  /\ (raises LocationServiceError (nearestN self c n) <-> active_of self = [])
  /\ (active_of self <> [] <-> exists r, nearest self c = Ok r)
  /\ (active_of self <> [] <-> exists l, nearestN self c n = Ok l).
Proof.
  destruct (active_of self) as [|a l] eqn:Ha.
  - assert (nearest self c = raise LocationServiceError "No locations loaded"
            \/ nearest self c = raise LocationServiceError "No active locations found")
      as H1.
    { unfold find_nearest_location. rewrite Ha.
      destruct (locations self); [now left|now right]. }
    assert (nearestN self c n = raise LocationServiceError "No locations loaded"
            \/ nearestN self c n = raise LocationServiceError "No active locations found")
      as H2.
    { unfold find_nearest_n_locations. rewrite Ha.
      destruct (locations self); [now left|now right]. }
    repeat split; try reflexivity; try congruence.
    + now destruct H1 as [-> | ->].
    + now destruct H2 as [-> | ->].
    + intros [r Hr]. destruct H1 as [H1|H1]; rewrite H1 in Hr; discriminate.
    + intros [r Hr]. destruct H2 as [H2|H2]; rewrite H2 in Hr; discriminate.
  - assert (active_of self <> []) as Hne by (rewrite Ha; discriminate).
    destruct (min_exists snd (pairs c self) (pairs_nonempty self c Hne))
      as (r & Hmin & _).
    pose proof (find_nearest_location_eq self c Hne) as Hr. rewrite Hmin in Hr.
    pose proof (find_nearest_n_locations_eq self c n Hne) as HN.
    rewrite Hr, HN. simpl.
    repeat split; try discriminate; try contradiction; eauto.
Qed.

(** The two raise sites differ in their message only. *)
Lemma no_candidates_messages (self : LocationService) (c : Coordinates) (n : Z) :
  active_of self = [] ->
  let msg := match locations self with
             | [] => "No locations loaded"
             | _ :: _ => "No active locations found"
             end%string in
  nearest self c = raise LocationServiceError msg
  /\ nearestN self c n = raise LocationServiceError msg.
Proof.
  intros Ha. unfold find_nearest_location, find_nearest_n_locations.
  rewrite Ha. destruct (locations self); split; reflexivity.
Qed.

(** C4: the active hub that comes first in the registry among those at
    the least distance is the one [find_nearest_location] returns,
    whatever hubs tie with it later in the registry. *)
Theorem find_nearest_location_first_tied
  (self : LocationService) (c : Coordinates)
  (pre post : list Location) (hub : Location) :
  locations self = pre ++ hub :: post ->
  active hub = true ->
  (forall h, In h pre -> active h = true ->
     (dist c (coordinates hub) < dist c (coordinates h))%Q) ->
  (forall h, In h post -> active h = true ->
     (dist c (coordinates hub) <= dist c (coordinates h))%Q) ->
  nearest self c = Ok (hub, dist c (coordinates hub)).
Proof.
  intros Hl Ha Hpre Hpost.
  assert (active_of self =
          List.filter active pre ++ hub :: List.filter active post) as Hact.
  { unfold active_locations. rewrite Hl, List.filter_app. simpl. now rewrite Ha. }
  rewrite find_nearest_location_eq by (rewrite Hact; now destruct (List.filter active pre)).
  rewrite (min_first_least snd (with_distance haversine c hub)); [reflexivity|].
  exists (List.map (with_distance haversine c) (List.filter active pre)),
         (List.map (with_distance haversine c) (List.filter active post)).
  rewrite Hact, map_app. split; [reflexivity|].
  split; apply List.Forall_forall; intros [h d] Hin;
    apply in_map_iff in Hin; destruct Hin as (h0 & Heq & Hin);
    rewrite with_distance_eq in Heq; injection Heq as -> <-;
    apply filter_In in Hin; destruct Hin as [Hin Hh]; simpl; auto.
Qed.

(** C10: for [n >= 1] the first pair of [find_nearest_n_locations] is
    the pair [find_nearest_location] returns. *)
Theorem nearest_n_head_is_nearest (self : LocationService) (c : Coordinates) (n : Z) :
  active_of self <> [] ->
  (1 <= n)%Z ->
  exists first rest,
    nearestN self c n = Ok (first :: rest)
    /\ nearest self c = Ok first.
Proof.
  intros Hact Hn.
  rewrite find_nearest_n_locations_eq, find_nearest_location_eq by assumption.
  rewrite slice_to_nonneg by lia.
  rewrite <- head_sorted.
  rewrite <- (head_firstn (Py.sorted snd (pairs c self)) (Z.to_nat n)) by lia.
  destruct (firstn (Z.to_nat n) (Py.sorted snd (pairs c self))) as [|first rest] eqn:E.
  - exfalso. apply (f_equal (@length _)) in E. rewrite length_firstn, sorted_length in E.
    pose proof (pairs_nonempty self c Hact) as Hp.
    destruct (pairs c self); [congruence|]. simpl in E. lia.
  - exists first, rest. split; reflexivity.
Qed.

(** X1, the part of C3 that holds: for [n >= 0] the result has
    [min(n, number of active hubs)] pairs, ascending by distance, and it
    is a prefix of a stable rearrangement of all the pairs. *)
Theorem find_nearest_n_locations_nonneg (self : LocationService) (c : Coordinates) (n : Z) :
  active_of self <> [] ->
  (0 <= n)%Z ->
  exists l all,
    nearestN self c n = Ok l
    /\ length l = Nat.min (Z.to_nat n) (length (active_of self))
    /\ StronglySorted (fun a b => snd a <= snd b)%Q l
    /\ l = firstn (Z.to_nat n) all
    /\ Permutation all (pairs c self)
    /\ forall d, List.filter (same_key snd d) all =
                 List.filter (same_key snd d) (pairs c self).
Proof.
  intros Hact Hn.
  exists (firstn (Z.to_nat n) (Py.sorted snd (pairs c self))),
         (Py.sorted snd (pairs c self)).
  rewrite find_nearest_n_locations_eq, slice_to_nonneg by assumption.
  repeat split.
  - now rewrite length_firstn, sorted_length, length_map.
  - apply firstn_strongly_sorted. apply sorted_sorted.
  - apply sorted_perm.
  - intros d. apply sorted_stable.
Qed.
End ResolverFacts.


(** ** The great-circle distance *)

Lemma sin_half_difference (x y : R) :
  ((sin ((x - y) / 2))² = (sin ((y - x) / 2))²)%R.
Proof.
  replace ((x - y) / 2)%R with (- ((y - x) / 2))%R by Lra.lra.
  rewrite sin_neg. symmetry. apply Rsqr_neg.
Qed.

Lemma atan2_0_1 : Spherical.atan2 0 1 = 0%R.
Proof.
  unfold Spherical.atan2. destruct (Rlt_dec 0 1) as [_|H].
  - unfold Rdiv. rewrite Rmult_0_l. apply atan_0.
  - exfalso. apply H, Rlt_0_1.
Qed.

Lemma haversine_symmetric (point1 point2 : R * R) :
  Spherical.haversine point1 point2 = Spherical.haversine point2 point1.
Proof.
  unfold Spherical.haversine. cbv zeta.
  rewrite (sin_half_difference (Spherical.radians (fst point2))),
    (sin_half_difference (Spherical.radians (snd point2))),
    (Rmult_comm (cos (Spherical.radians (fst point1)))).
  reflexivity.
Qed.

Lemma haversine_self (point : R * R) : Spherical.haversine point point = 0%R.
Proof.
  unfold Spherical.haversine. cbv zeta.
  replace ((Spherical.radians (fst point) - Spherical.radians (fst point)) / 2)%R
    with 0%R by Lra.lra.
  replace ((Spherical.radians (snd point) - Spherical.radians (snd point)) / 2)%R
    with 0%R by Lra.lra.
  rewrite sin_0, Rsqr_0, Rmult_0_r, Rplus_0_r, Rminus_0_r.
  rewrite sqrt_0, sqrt_1, atan2_0_1, !Rmult_0_r. reflexivity.
Qed.

(** C8: with [haversine] the formula of the specification over the real
    numbers, [calculate_distance] is symmetric, exactly and so within
    the relative tolerance of 1e-9, and the distance from a point to
    itself is 0. *)
Theorem calculate_distance_symmetric (p q : Coordinates) :
  Spherical.calculate_distance p q = Spherical.calculate_distance q p
  /\ (Rabs (Spherical.calculate_distance p q - Spherical.calculate_distance q p)
      <= 1e-9 * Rabs (Spherical.calculate_distance p q))%R
  /\ Spherical.calculate_distance p p = 0%R.
Proof.
  assert (Spherical.calculate_distance p q = Spherical.calculate_distance q p) as H
    by apply haversine_symmetric.
  split; [exact H|]. split; [|apply haversine_self].
  rewrite <- H. unfold Rminus. rewrite Rplus_opp_r, Rabs_R0.
  apply Rmult_le_pos; [Lra.lra|apply Rabs_pos].
Qed.

(** ** The loaders *)

Lemma bind_skippable {A B : Type} (r : result A) (k : A -> result B) :
  skippable r -> (forall a, skippable (k a)) -> skippable (r ≫= k).
Proof.
  destruct r as [a|[c m]]; simpl; intros Hr Hk; [apply Hk|exact Hr].
Qed.

Lemma bind_Ok {A B : Type} (r : result A) (k : A -> result B) (b : B) :
  r ≫= k = Ok b -> exists a, r = Ok a /\ k a = Ok b.
Proof.
  destruct r as [a|e]; simpl; [eauto|discriminate].
Qed.

Lemma getitem_skippable (row : Row) (key : string) : skippable (getitem row key).
Proof. unfold getitem. destruct (row !! key); simpl; auto. Qed.

Lemma getitem_Ok (row : Row) (key : string) (v : PyVal) :
  getitem row key = Ok v -> row !! key = Some v.
Proof. unfold getitem. destruct (row !! key); [congruence|discriminate]. Qed.

Lemma ge_le_skippable (lo hi : Q) (v : PyFloat) : skippable (ge_le lo hi v).
Proof.
  destruct v as [q| | |]; simpl; auto.
  destruct (Qle_bool lo q), (Qle_bool q hi); simpl; auto.
Qed.

Lemma Coordinates_new_skippable (lat lon : PyFloat) :
  skippable (Coordinates_new lat lon).
Proof.
  unfold Coordinates_new.
  apply bind_skippable; [apply ge_le_skippable|intros lat'].
  apply bind_skippable; [apply ge_le_skippable|intros lon']. exact I.
Qed.

Lemma Coordinates_new_Ok (lat lon : PyFloat) (c : Coordinates) :
  Coordinates_new lat lon = Ok c ->
  ge_le (-90) 90 lat = Ok (latitude c) /\ ge_le (-180) 180 lon = Ok (longitude c).
Proof.
  unfold Coordinates_new. intros H.
  apply bind_Ok in H as (lat' & Hlat & H).
  apply bind_Ok in H as (lon' & Hlon & H).
  injection H as <-. now split.
Qed.

Lemma ge_le_Ok (lo hi : Q) (v : PyFloat) (q : Q) :
  ge_le lo hi v = Ok q -> v = Fin q /\ (lo <= q <= hi)%Q.
Proof.
  destruct v as [q'| | |]; simpl; try discriminate.
  destruct (Qle_bool lo q') eqn:E1; [|discriminate].
  destruct (Qle_bool q' hi) eqn:E2; [|discriminate].
  intros [= ->]. apply Qle_bool_iff in E1, E2. auto.
Qed.

Lemma last_cons {A : Type} (l : list A) (a d : A) :
  List.last (a :: l) d = List.last l a.
Proof.
  revert a d. induction l as [|b l IH]; intros a d; [reflexivity|].
  change (List.last (a :: b :: l) d) with (List.last (b :: l) d).
  now rewrite (IH b d), (IH b a).
Qed.

Section LoaderFacts.
Variable lib : PyLib.

Lemma py_float_cases (v : PyVal) :
  match py_float lib v with
  | Ok _ => ~ unconvertible v
  | Raised (c, _) =>
    (c = ValueError /\ ~ unconvertible v) \/ (c = OtherException /\ unconvertible v)
  end.
Proof.
  unfold unconvertible. destruct v as [s|z|x|b|]; simpl.
  - destruct (float_of_str lib s); simpl.
    + intros [H|(z & H & _)]; discriminate.
    + left. split; [reflexivity|]. intros [H|(z & H & _)]; discriminate.
  - destruct (overflows z) eqn:E; simpl.
    + right. split; [reflexivity|]. right. eauto.
    + intros [H|(z' & [= <-] & H)]; congruence.
  - intros [H|(z & H & _)]; discriminate.
  - intros [H|(z & H & _)]; discriminate.
  - right. split; [reflexivity|]. now left.
Qed.

Lemma validate_str_skippable (field : string) (v : PyVal) :
  skippable (validate_str lib field v).
Proof.
  unfold validate_str.
  destruct v; try destruct (str_validator lib _); simpl; auto.
Qed.

Lemma validate_opt_str_skippable (field : string) (o : option PyVal) :
  skippable (validate_opt_str lib field o).
Proof.
  destruct o as [v|]; [|exact I].
  destruct v; try exact I;
    (apply bind_skippable; [apply validate_str_skippable|intros ?; exact I]).
Qed.

(** What [make_location] does once both coordinates are floats raises
    nothing but [ValueError]. *)
Lemma validation_skippable (row : Row) (id_arg : string) (name_arg address_arg : PyVal)
  (lat lon : PyFloat) (active_arg : bool) :
  skippable
    (coordinates_arg ← Coordinates_new lat lon;
     name' ← validate_str lib "name" name_arg;
     address' ← validate_str lib "address" address_arg;
     city' ← validate_opt_str lib "city" (row !! "city");
     state' ← validate_opt_str lib "state" (row !! "state");
     postal_code' ← validate_opt_str lib "postal_code" (row !! "postal_code");
     country' ← validate_opt_str lib "country" (row !! "country");
     region' ← validate_opt_str lib "region" (row !! "region");
     type' ← validate_opt_str lib "type" (row !! "type");
     Ok {| id := Some id_arg; name := name'; address := address';
           city := city'; state := state'; postal_code := postal_code';
           country := country'; coordinates := coordinates_arg;
           region := region'; type := type'; active := active_arg |}).
Proof.
  repeat (apply bind_skippable;
          [first [apply Coordinates_new_skippable | apply validate_str_skippable
                 | apply validate_opt_str_skippable]
          | intros ?]).
  exact I.
Qed.

(** A row is accepted or skipped, or else it is an [aborting_row] and
    makes the loop stop. *)
Lemma make_location_outcome (row : Row) :
  (skippable (make_location lib row) /\ ~ aborting_row lib row)
  \/ ((exists m, make_location lib row = Raised (OtherException, m))
      /\ aborting_row lib row).
Proof.
  unfold make_location, aborting_row, getitem.
  destruct (row !! "name") as [vname|] eqn:Ename.
  2:{ left. split; [left; reflexivity|]. intros (H & _). congruence. }
  destruct (row !! "address") as [vaddress|] eqn:Eaddress.
  2:{ left. split; [left; reflexivity|]. intros (_ & H & _). congruence. }
  destruct (row !! "latitude") as [vlat|] eqn:Evlat.
  2:{ left. split; [left; reflexivity|]. intros (_ & _ & v & H & _). discriminate. }
  cbn [mbind result_bind].
  pose proof (py_float_cases vlat) as Hlat.
  destruct (py_float lib vlat) as [lat|[c m]] eqn:Elat; cbn [mbind result_bind].
  2:{ destruct Hlat as [[-> Hlat]|[-> Hlat]].
      - left. split; [right; reflexivity|].
        intros (_ & _ & v & [= <-] & [H|[(x & Hx) _]]); [contradiction|congruence].
      - right. split; [eauto|]. repeat split; try discriminate. eauto. }
  destruct (row !! "longitude") as [vlon|] eqn:Evlon.
  2:{ left. split; [left; reflexivity|].
      intros (_ & _ & v & [= <-] & [H|[_ (v' & H & _)]]); [contradiction|discriminate]. }
  pose proof (py_float_cases vlon) as Hlon.
  cbn [mbind result_bind].
  destruct (py_float lib vlon) as [lon|[c m]] eqn:Elon; cbn [mbind result_bind].
  2:{ destruct Hlon as [[-> Hlon]|[-> Hlon]].
      - left. split; [right; reflexivity|].
        intros (_ & _ & v & [= <-] & [H|[_ (v' & [= <-] & H)]]); contradiction.
      - right. split; [eauto|]. repeat split; try discriminate.
        exists vlat. split; [reflexivity|]. right. split; eauto. }
  left. split; [apply validation_skippable|].
  intros (_ & _ & v & [= <-] & [H|[_ (v' & [= <-] & H)]]); contradiction.
Qed.

(** What a row that yields a hub must contain. *)
Lemma make_location_Ok (row : Row) (loc : Location) :
  make_location lib row = Ok loc ->
  exists vname vaddress vlat vlon lat lon,
    row !! "name" = Some vname /\ row !! "address" = Some vaddress
    /\ row !! "latitude" = Some vlat /\ row !! "longitude" = Some vlon
    /\ py_float lib vlat = Ok lat /\ py_float lib vlon = Ok lon
    /\ ge_le (-90) 90 lat = Ok (latitude (coordinates loc))
    /\ ge_le (-180) 180 lon = Ok (longitude (coordinates loc)).
Proof.
  unfold make_location. intros H.
  apply bind_Ok in H as (vname & Hname & H).
  apply bind_Ok in H as (vaddress & Haddress & H).
  apply bind_Ok in H as (vlat & Hvlat & H).
  apply bind_Ok in H as (lat & Hlat & H).
  apply bind_Ok in H as (vlon & Hvlon & H).
  apply bind_Ok in H as (lon & Hlon & H).
  apply bind_Ok in H as (c & Hc & H).
  repeat (apply bind_Ok in H as (? & _ & H)).
  injection H as <-. simpl.
  apply Coordinates_new_Ok in Hc as [Hc1 Hc2].
  apply getitem_Ok in Hname, Haddress, Hvlat, Hvlon.
  exists vname, vaddress, vlat, vlon, lat, lon. repeat split; assumption.
Qed.

Lemma bad_coordinate_rejected (lo hi : Q) (v : PyVal) :
  bad_coordinate lib lo hi v ->
  forall x, py_float lib v = Ok x -> forall q, ge_le lo hi x = Ok q -> False.
Proof.
  intros [(s & -> & Hs)|(x' & Hx' & Hout)] x Hx q Hq.
  - simpl in Hx. rewrite Hs in Hx. discriminate.
  - assert (x' = x) as -> by congruence.
    apply ge_le_Ok in Hq as [-> Hq]. contradiction.
Qed.

Lemma malformed_raises (row : Row) :
  malformed lib row -> exists e, make_location lib row = Raised e.
Proof.
  intros Hbad. destruct (make_location lib row) as [loc|e] eqn:E; [|eauto].
  exfalso. apply make_location_Ok in E
    as (vname & vaddress & vlat & vlon & lat & lon
        & Hn & Ha & Hvlat & Hvlon & Hlat & Hlon & Hc1 & Hc2).
  destruct Hbad as [[H|[H|[H|H]]]|[(v & Hv & H)|(v & Hv & H)]]; try congruence.
  - assert (v = vlat) as -> by congruence.
    apply (bad_coordinate_rejected _ _ _ H _ Hlat _ Hc1).
  - assert (v = vlon) as -> by congruence.
    apply (bad_coordinate_rejected _ _ _ H _ Hlon _ Hc2).
Qed.

(** A malformed row whose coordinate cells [float] can be applied to
    raises [KeyError] or [ValueError]. *)
Lemma malformed_skipped (row : Row) :
  malformed lib row -> convertible_coordinates row ->
  exists c m, make_location lib row = Raised (c, m) /\ (c = KeyError \/ c = ValueError).
Proof.
  intros Hbad Hconv.
  destruct (make_location_outcome row) as [[Hs _]|[_ Ha]].
  - destruct (malformed_raises row Hbad) as [[c m] E].
    rewrite E in Hs. exists c, m. split; [exact E|exact Hs].
  - exfalso. destruct Ha as (_ & _ & vlat & Hvlat & [H|[_ (vlon & Hvlon & H)]]).
    + apply (Hconv vlat); auto.
    + apply (Hconv vlon); auto.
Qed.

Lemma loaded_hubs_app (rows rows' : list Row) :
  loaded_hubs lib (rows ++ rows') = loaded_hubs lib rows ++ loaded_hubs lib rows'.
Proof.
  induction rows as [|row rows IH]; [reflexivity|]. simpl.
  destruct (make_location lib row); [simpl; f_equal|]; exact IH.
Qed.

Lemma loaded_hubs_malformed (row : Row) (rows : list Row) :
  malformed lib row -> loaded_hubs lib (row :: rows) = loaded_hubs lib rows.
Proof.
  intros H. apply malformed_raises in H as [e He]. simpl. now rewrite He.
Qed.

Lemma loaded_hubs_In (rows : list Row) (loc : Location) :
  In loc (loaded_hubs lib rows) <->
  exists row, In row rows /\ make_location lib row = Ok loc.
Proof.
  induction rows as [|row rows IH]; simpl.
  - split; [contradiction|]. intros (row & [] & _).
  - destruct (make_location lib row) as [loc'|e] eqn:E; simpl; rewrite IH; split.
    + intros [->|(row' & Hin & Hrow')]; eauto.
    + intros (row' & [->|Hin] & Hrow'); [left; congruence|eauto].
    + intros (row' & Hin & Hrow'); eauto.
    + intros (row' & [->|Hin] & Hrow'); [congruence|eauto].
Qed.

Lemma first_abort_skip (row : Row) (rows : list Row) :
  skippable (make_location lib row) ->
  first_abort lib (row :: rows) = first_abort lib rows
  /\ processed lib (row :: rows) = row :: processed lib rows.
Proof.
  cbn [first_abort processed].
  destruct (make_location lib row) as [loc|[[] m]]; simpl;
    intros H; try (split; reflexivity); destruct H; discriminate.
Qed.

Lemma first_abort_app (rows rows' : list Row) :
  first_abort lib (rows ++ rows') =
  match first_abort lib rows with
  | Some e => Some e
  | None => first_abort lib rows'
  end.
Proof.
  induction rows as [|row rows IH]; [reflexivity|].
  cbn [app first_abort].
  destruct (make_location lib row) as [loc|[[] m]]; auto.
Qed.

(** A loop that is not stopped gets through all the rows. *)
Lemma processed_all (rows : list Row) :
  first_abort lib rows = None -> processed lib rows = rows.
Proof.
  induction rows as [|row rows IH]; [reflexivity|].
  cbn [first_abort processed].
  destruct (make_location lib row) as [loc|[[] m]]; intros H;
    try discriminate; now rewrite (IH H).
Qed.

Lemma processed_sublist (rows : list Row) :
  sublist (processed lib rows) rows.
Proof.
  induction rows as [|row rows IH]; [constructor|].
  cbn [processed].
  destruct (make_location lib row) as [loc|[[] m]];
    first [now constructor | apply sublist_nil_l].
Qed.

(** The loop is stopped exactly when some row is an [aborting_row]. *)
Lemma first_abort_Some_iff (rows : list Row) :
  (exists e, first_abort lib rows = Some e) <-> List.Exists (aborting_row lib) rows.
Proof.
  induction rows as [|row rows IH].
  - split; [intros [e H]; discriminate|intros H; inversion H].
  - rewrite List.Exists_cons.
    destruct (make_location_outcome row) as [[Hs Hn]|[(m & Hm) Ha]].
    + destruct (first_abort_skip row rows Hs) as [-> _]. rewrite IH. tauto.
    + cbn [first_abort]. rewrite Hm. split; eauto.
Qed.

Lemma map_locations_grow (self : LocationService) (hubs acc : list Location) :
  List.map locations (List.map (set_locations self) (grow acc hubs)) = grow acc hubs.
Proof.
  rewrite List.map_map. cbn [set_locations locations]. apply List.map_id.
Qed.

Lemma last_grow (self : LocationService) (hubs acc : list Location) :
  List.last (List.map (set_locations self) (grow acc hubs)) (set_locations self acc)
  = set_locations self (acc ++ hubs).
Proof.
  revert acc. induction hubs as [|h hs IH]; intros acc.
  - cbn. now rewrite app_nil_r.
  - cbn [grow List.map]. rewrite last_cons, IH, <- app_assoc. reflexivity.
Qed.

(** The row loop: the registry grows by the hubs of the rows it gets
    through, and the loop ends or is stopped. *)
Lemma process_rows_eq (self : LocationService) (rows : list Row) :
  process_rows lib self rows =
  {| states := List.map (set_locations self)
                 (grow (locations self) (loaded_hubs lib (processed lib rows)));
     value := match first_abort lib rows with
              | None => Ok ()
              | Some e => Raised e
              end |}.
Proof.
  revert self. induction rows as [|row rows IH]; intros self; [reflexivity|].
  cbn [process_rows first_abort processed].
  destruct (make_location lib row) as [loc|[[] m]] eqn:E;
    cbn [loaded_hubs]; rewrite ?E; try reflexivity; rewrite IH; reflexivity.
Qed.

(** The row loop goes over a row that raises [KeyError] or [ValueError]
    as if it were not there. *)
Lemma process_rows_skip (pre post : list Row) (row : Row) (c : ExcClass) (m : string) :
  make_location lib row = Raised (c, m) -> c = KeyError \/ c = ValueError ->
  forall self,
    process_rows lib self (pre ++ row :: post) = process_rows lib self (pre ++ post).
Proof.
  intros E Hc. induction pre as [|r pre IH]; intros self.
  - cbn [app process_rows]. rewrite E. now destruct Hc as [-> | ->].
  - cbn [app process_rows].
    destruct (make_location lib r) as [loc|[[] m']]; rewrite ?IH; reflexivity.
Qed.

(** A load whose source fails: nothing is assigned. *)
Lemma load_locations_failed (w : World) (self : LocationService) (e : exn) :
  read_source w self = Raised e ->
  load_locations lib w self =
  {| states := [];
     value := raise LocationServiceError ("Failed to load locations: " ++ snd e)%string |}.
Proof.
  unfold read_source, load_locations, _load_from_csv, _load_from_google_sheets,
    _load_from_database, failed, raise.
  destruct (String.eqb (data_source_type self) "csv").
  { destruct (negb (path_exists w (CSV_FILE_PATH w))); [now intros [= <-]|].
    destruct (read_csv w (CSV_FILE_PATH w)); [discriminate|now intros [= <-]]. }
  destruct (String.eqb (data_source_type self) "google_sheets").
  { destruct (falsy (GOOGLE_SHEETS_ID w)); [now intros [= <-]|].
    destruct (negb (path_exists w (GOOGLE_CREDENTIALS_JSON w))); [now intros [= <-]|].
    destruct (get_all_records w); [discriminate|now intros [= <-]]. }
  destruct (String.eqb (data_source_type self) "postgres").
  { destruct (falsy (DATABASE_URL w)); [now intros [= <-]|].
    destruct (read_sql w); [discriminate|now intros [= <-]]. }
  now intros [= <-].
Qed.

(** A load whose source delivers [rows]. *)
Lemma load_locations_loaded (w : World) (self : LocationService) (rows : list Row) :
  read_source w self = Ok rows ->
  states (load_locations lib w self) =
    (set_locations self [] ::
     List.map (set_locations self) (grow [] (loaded_hubs lib (processed lib rows))))
    ++ match first_abort lib rows with
       | None => [load_leaves lib w self rows]
       | Some _ => []
       end
  /\ value (load_locations lib w self) = load_value lib (data_source_type self) rows.
Proof.
  intros Hsrc.
  unfold load_locations.
  match goal with
  | |- context [match value ?r with _ => _ end] =>
    assert (r = clear_and_process lib (source_name (data_source_type self)) self rows)
      as ->
  end.
  { revert Hsrc.
    unfold read_source, _load_from_csv, _load_from_google_sheets,
      _load_from_database, failed, raise, source_name.
    destruct (String.eqb (data_source_type self) "csv").
    { destruct (negb (path_exists w (CSV_FILE_PATH w))); [discriminate|].
      destruct (read_csv w (CSV_FILE_PATH w)); [|discriminate].
      now intros [= ->]. }
    destruct (String.eqb (data_source_type self) "google_sheets").
    { destruct (falsy (GOOGLE_SHEETS_ID w)); [discriminate|].
      destruct (negb (path_exists w (GOOGLE_CREDENTIALS_JSON w))); [discriminate|].
      destruct (get_all_records w); [|discriminate].
      now intros [= ->]. }
    destruct (String.eqb (data_source_type self) "postgres").
    { destruct (falsy (DATABASE_URL w)); [discriminate|].
      destruct (read_sql w); [|discriminate].
      now intros [= ->]. }
    discriminate. }
  unfold clear_and_process, load_value, load_leaves, final.
  rewrite process_rows_eq. cbn [states value locations set_locations].
  change (set_locations (set_locations self [])) with (set_locations self).
  destruct (first_abort lib rows) as [e|] eqn:Ea.
  - cbn [states value]. rewrite app_nil_r. split; reflexivity.
  - cbn [states value]. rewrite last_cons.
    pose proof (last_grow self (loaded_hubs lib (processed lib rows)) []) as Hl.
    cbn [set_locations app] in Hl. rewrite Hl.
    rewrite (processed_all rows Ea). split; reflexivity.
Qed.

Lemma load_locations_final (w : World) (self : LocationService) (rows : list Row) :
  read_source w self = Ok rows ->
  final self (load_locations lib w self) = load_leaves lib w self rows.
Proof.
  intros Hsrc. destruct (load_locations_loaded w self rows Hsrc) as [Hst _].
  unfold final. rewrite Hst. unfold load_leaves.
  destruct (first_abort lib rows) as [e|].
  - rewrite app_nil_r, last_cons.
    pose proof (last_grow self (loaded_hubs lib (processed lib rows)) []) as Hl.
    cbn [app] in Hl. exact Hl.
  - now rewrite last_last.
Qed.

(** Whether the load returns or raises, once the source has been read
    the registry holds the hubs of the rows the loop got through. *)
Lemma load_locations_registry (w : World) (self : LocationService) (rows : list Row) :
  read_source w self = Ok rows ->
  locations (final self (load_locations lib w self))
  = loaded_hubs lib (processed lib rows).
Proof.
  intros Hsrc. rewrite (load_locations_final w self rows Hsrc). unfold load_leaves.
  destruct (first_abort lib rows) as [e|] eqn:Ea; [reflexivity|].
  now rewrite (processed_all rows Ea).
Qed.

(** X9: a load raises exactly when its source fails or, the source
    having been read, some row is an [aborting_row]: it has a name and
    an address, and its latitude, or with a convertible latitude its
    longitude, is [None] or an integer too large for a float.  Whatever
    a load raises is a [LocationServiceError]. *)
Theorem load_locations_raises_iff (w : World) (self : LocationService) :
  ((exists e, value (load_locations lib w self) = Raised e)
   <-> (exists e, read_source w self = Raised e)
       \/ (exists rows, read_source w self = Ok rows
                        /\ List.Exists (aborting_row lib) rows))
  /\ (forall e, value (load_locations lib w self) = Raised e ->
        fst e = LocationServiceError).
Proof.
  destruct (read_source w self) as [rows|e] eqn:E.
  - destruct (load_locations_loaded w self rows E) as [_ ->].
    unfold load_value.
    pose proof (first_abort_Some_iff rows) as Hiff.
    destruct (first_abort lib rows) as [e|].
    + split.
      * split; [intros _|unfold raise; eauto].
        right. exists rows. split; [reflexivity|]. apply Hiff. eauto.
      * unfold raise. now intros e' [= <-].
    + split; [|discriminate]. split.
      * intros [e H]. discriminate.
      * intros [[e H]|(rows' & [= <-] & H)]; [discriminate|].
        apply Hiff in H as [e H]. discriminate.
  - rewrite (load_locations_failed w self e E). cbn [value]. unfold raise. split.
    + split; eauto.
    + now intros e' [= <-].
Qed.

(** C5, as the code has it: once the source has been read, the hub list
    of the service is reset to the empty list and then grows in place,
    one hub per accepted record, so it passes through every prefix of
    the list of the hubs of the records the loop gets through.  When no
    record stops the loop, that is the list of the hubs of all accepted
    records, the load returns it, and its last assignment only sets
    [last_loaded]; when a record stops the loop, the load raises
    [LocationServiceError] and the list and [last_loaded] stay as they
    were at that record. *)
Theorem load_locations_grows_in_place
  (w : World) (self : LocationService) (rows : list Row) :
  read_source w self = Ok rows ->
  List.map locations (states (load_locations lib w self)) =
    [] :: grow [] (loaded_hubs lib (processed lib rows))
       ++ match first_abort lib rows with
          | None => [loaded_hubs lib rows]
          | Some _ => []
          end
  /\ locations (final self (load_locations lib w self))
     = loaded_hubs lib (processed lib rows)
  /\ (first_abort lib rows = None ->
      processed lib rows = rows
      /\ value (load_locations lib w self) = Ok (loaded_hubs lib rows)
      /\ last_loaded (final self (load_locations lib w self)) = Some (utcnow w))
  /\ (first_abort lib rows <> None ->
      raises LocationServiceError (value (load_locations lib w self))
      /\ last_loaded (final self (load_locations lib w self)) = last_loaded self).
Proof.
  intros Hsrc.
  destruct (load_locations_loaded w self rows Hsrc) as [Hst Hv].
  rewrite (load_locations_registry w self rows Hsrc),
    (load_locations_final w self rows Hsrc), Hst, Hv.
  unfold load_value, load_leaves.
  split; [|split; [reflexivity|]].
  - rewrite map_app, map_cons, map_locations_grow.
    now destruct (first_abort lib rows).
  - destruct (first_abort lib rows) as [e|] eqn:Ea.
    + split; [discriminate|]. intros _. split; reflexivity.
    + split; [|congruence]. intros _.
      split; [exact (processed_all rows Ea)|]. split; reflexivity.
Qed.

(** C6: when the source of a load fails, [load_locations] (and so
    [reload_locations]) raises [LocationServiceError] without having
    assigned anything: the hub list and [last_loaded] are those from
    before the call. *)
Theorem load_failure_preserves_registry
  (w : World) (self : LocationService) (e : exn) :
  read_source w self = Raised e ->
  raises LocationServiceError (value (load_locations lib w self))
  /\ states (load_locations lib w self) = []
  /\ locations (final self (load_locations lib w self)) = locations self
  /\ last_loaded (final self (load_locations lib w self)) = last_loaded self
  /\ reload_locations lib w self = load_locations lib w self.
Proof.
  intros Hsrc. unfold reload_locations.
  rewrite (load_locations_failed w self e Hsrc).
  unfold final. simpl. repeat split; reflexivity.
Qed.

(** C7, as the code has it: a record in which a required key is absent,
    or whose latitude or longitude is text that is not a number or a
    number outside the bounds, and whose coordinate cells are neither
    [None] nor an integer too large for a float, raises [KeyError] or
    [ValueError] and is skipped: the row loop does what it does without
    the record, and when no other record stops the loop the load
    returns, and leaves in the registry, exactly the hubs of the records
    before it followed by the hubs of the records after it. *)
Theorem malformed_row_skipped
  (w : World) (self : LocationService) (pre post : list Row) (row : Row) :
  read_source w self = Ok (pre ++ row :: post) ->
  malformed lib row ->
  convertible_coordinates row ->
  (raises KeyError (make_location lib row) \/ raises ValueError (make_location lib row))
  /\ (forall st,
        process_rows lib st (pre ++ row :: post) = process_rows lib st (pre ++ post))
  /\ (first_abort lib pre = None -> first_abort lib post = None ->
      value (load_locations lib w self) = Ok (loaded_hubs lib pre ++ loaded_hubs lib post)
      /\ locations (final self (load_locations lib w self)) =
           loaded_hubs lib pre ++ loaded_hubs lib post).
Proof.
  intros Hsrc Hbad Hconv.
  destruct (malformed_skipped row Hbad Hconv) as (c & m & E & Hc).
  split; [|split].
  - rewrite E. simpl. tauto.
  - apply (process_rows_skip pre post row c m E Hc).
  - intros Hpre Hpost.
    assert (first_abort lib (pre ++ row :: post) = None) as Ha.
    { rewrite first_abort_app, Hpre.
      assert (skippable (make_location lib row)) as Hs by (rewrite E; exact Hc).
      now destruct (first_abort_skip row post Hs) as [-> _]. }
    destruct (load_locations_loaded w self _ Hsrc) as [_ Hv].
    rewrite (load_locations_registry w self _ Hsrc), Hv.
    unfold load_value. rewrite Ha, (processed_all _ Ha).
    rewrite loaded_hubs_app, (loaded_hubs_malformed row post Hbad).
    now split.
Qed.
End LoaderFacts.

(** [grow] lists the prefixes of [acc ++ hubs] that are longer than
    [acc], shortest first. *)
Lemma grow_prefixes (hubs acc : list Location) :
  grow acc hubs =
  List.map (fun k => acc ++ firstn (S k) hubs) (seq 0 (length hubs)).
Proof.
  revert acc. induction hubs as [|h hs IH]; intros acc; [reflexivity|].
  cbn [grow length seq List.map firstn]. f_equal.
  rewrite IH, <- seq_shift, List.map_map.
  apply map_ext. intros k. now rewrite <- app_assoc.
Qed.

(** ** Structural queries *)

(** C9: on a service whose hub list is empty, [get_location_by_id]
    returns [None], [get_locations_by_region] returns the empty list and
    [get_locations_count] reports zero hubs, active and inactive. *)
Theorem empty_registry_queries
  (self : LocationService) (location_id reg : string) :
  locations self = [] ->
  get_location_by_id self location_id = None
  /\ get_locations_by_region self reg = []
  /\ get_locations_count self =
       {| total := 0; active_count := 0; inactive_count := 0 |}.
Proof.
  intros H.
  unfold get_location_by_id, get_locations_by_region, get_locations_count.
  rewrite H. repeat split.
Qed.

(** ** The definitions at work *)

Lemma empty_registry_queries_witness :
  locations (init "csv") = []
  /\ get_location_by_id (init "csv") "loc_001" = None
  /\ get_locations_by_region (init "csv") "Midwest" = []
  /\ get_locations_count (init "csv") =
       {| total := 0; active_count := 0; inactive_count := 0 |}.
Proof.
  split; [reflexivity|].
  apply (empty_registry_queries (init "csv") "loc_001" "Midwest"). reflexivity.
Defined.

(** C3 fails for a negative [n]: with three active hubs and [n = -1]
    the slice drops the farthest pair only, and two pairs come back. *)
Theorem find_nearest_n_locations_negative_n
  (haversine : Py.float * Py.float -> Py.float * Py.float -> Py.float) :
  exists l,
    find_nearest_n_locations haversine
      (Sample.service [Sample.hubA; Sample.hubB; Sample.hubC]) Sample.query (-1) = Ok l
    /\ length l = 2%nat.
Proof.
  eexists. split; [reflexivity|].
  unfold Py.slice_to. cbn [Z.leb Z.compare].
  rewrite length_firstn, sorted_length. reflexivity.
Qed.

Example negative_n_under_taxicab :
  find_nearest_n_locations Sample.taxicab
    (Sample.service [Sample.hubA; Sample.hubB; Sample.hubC]) Sample.query (-1)
  = Ok [(Sample.hubA, (1 # 4)%Q); (Sample.hubB, (3 # 4)%Q)].
Proof. vm_compute. reflexivity. Qed.

Lemma find_nearest_location_nearest_witness :
  active_locations Sample.registry <> []
  /\ exists hub d,
      find_nearest_location Sample.taxicab Sample.registry Sample.query = Ok (hub, d)
      /\ In hub (locations Sample.registry)
      /\ active hub = true
      /\ d = calculate_distance Sample.taxicab Sample.query (coordinates hub)
      /\ forall h, In h (locations Sample.registry) -> active h = true ->
           ~ (calculate_distance Sample.taxicab Sample.query (coordinates h) < d)%Q.
Proof.
  assert (active_locations Sample.registry <> []) as H by (vm_compute; discriminate).
  split; [exact H|].
  exact (find_nearest_location_nearest Sample.taxicab Sample.registry Sample.query H).
Defined.

Lemma find_nearest_location_first_tied_witness :
  find_nearest_location Sample.taxicab Sample.tied_registry Sample.query
  = Ok (Sample.hubA,
        calculate_distance Sample.taxicab Sample.query (coordinates Sample.hubA)).
Proof.
  apply (find_nearest_location_first_tied Sample.taxicab Sample.tied_registry Sample.query
           [Sample.hubC] [Sample.hubA'] Sample.hubA).
  - reflexivity.
  - reflexivity.
  - intros h [<-|[]] _. vm_compute. reflexivity.
  - intros h [<-|[]] _. vm_compute. discriminate.
Defined.

Lemma nearest_n_head_is_nearest_witness :
  active_locations Sample.registry <> []
  /\ (1 <= 2)%Z
  /\ exists first rest,
      find_nearest_n_locations Sample.taxicab Sample.registry Sample.query 2
      = Ok (first :: rest)
      /\ find_nearest_location Sample.taxicab Sample.registry Sample.query = Ok first.
Proof.
  assert (active_locations Sample.registry <> []) as H by (vm_compute; discriminate).
  assert (1 <= 2)%Z as Hn by lia.
  split; [exact H|]. split; [exact Hn|].
  exact (nearest_n_head_is_nearest Sample.taxicab Sample.registry Sample.query 2 H Hn).
Defined.

(** C5 as stated fails: a load of the five sample records over a
    registry that held one hub passes through the empty list, which is
    neither the list from before the load nor the list it ends with. *)
Lemma load_locations_not_published_once :
  ~ published_once (Sample.service [Sample.hubA])
      (load_locations Sample.lib Sample.loaded_world
         (Sample.service [Sample.hubA])).
Proof.
  intros H.
  specialize (H (set_locations (Sample.service [Sample.hubA]) [])).
  destruct H as [H|H].
  - vm_compute. left. reflexivity.
  - vm_compute in H. discriminate.
  - vm_compute in H. discriminate.
Qed.

(** The same load also shows a list of one hub out of four. *)
Example load_locations_half_built :
  List.map (fun st => length (locations st))
    (states (load_locations Sample.lib Sample.loaded_world
               (Sample.service [Sample.hubA])))
  = [0; 1; 2; 3; 4; 4]%nat.
Proof. vm_compute. reflexivity. Qed.

Lemma load_locations_grows_in_place_witness :
  read_source Sample.loaded_world (Sample.service [Sample.hubA]) = Ok Sample.five_rows
  /\ List.map locations
       (states (load_locations Sample.lib Sample.loaded_world
                  (Sample.service [Sample.hubA]))) =
       [] :: grow [] Sample.four_hubs ++ [Sample.four_hubs]
  /\ value (load_locations Sample.lib Sample.loaded_world
              (Sample.service [Sample.hubA])) =
       Ok Sample.four_hubs.
Proof.
  assert (read_source Sample.loaded_world (Sample.service [Sample.hubA])
          = Ok Sample.five_rows) as H by reflexivity.
  split; [exact H|].
  destruct (load_locations_grows_in_place Sample.lib Sample.loaded_world
              (Sample.service [Sample.hubA]) Sample.five_rows H)
    as (Htrace & _ & Hreturns & _).
  assert (first_abort Sample.lib Sample.five_rows = None) as Ha
    by (vm_compute; reflexivity).
  destruct (Hreturns Ha) as (_ & Hv & _).
  split.
  - rewrite Htrace. vm_compute. reflexivity.
  - rewrite Hv. vm_compute. reflexivity.
Defined.

Lemma load_failure_preserves_registry_witness :
  read_source Sample.missing_world Sample.registry = Raised Sample.missing_error
  /\ raises LocationServiceError
       (value (load_locations Sample.lib Sample.missing_world Sample.registry))
  /\ states (load_locations Sample.lib Sample.missing_world Sample.registry) = []
  /\ locations
       (final Sample.registry
          (load_locations Sample.lib Sample.missing_world Sample.registry))
     = locations Sample.registry
  /\ last_loaded
       (final Sample.registry
          (load_locations Sample.lib Sample.missing_world Sample.registry))
     = last_loaded Sample.registry
  /\ reload_locations Sample.lib Sample.missing_world Sample.registry
     = load_locations Sample.lib Sample.missing_world Sample.registry.
Proof.
  assert (read_source Sample.missing_world Sample.registry
          = Raised Sample.missing_error) as H by reflexivity.
  split; [exact H|].
  exact (load_failure_preserves_registry Sample.lib Sample.missing_world
           Sample.registry Sample.missing_error H).
Defined.

(** Five records, one with a latitude that is not a number: the four
    well-formed hubs. *)
Lemma malformed_row_skipped_witness :
  read_source Sample.loaded_world (init "csv")
  = Ok (Sample.rows_before ++ Sample.bad_row :: Sample.rows_after)
  /\ malformed Sample.lib Sample.bad_row
  /\ convertible_coordinates Sample.bad_row
  /\ value (load_locations Sample.lib Sample.loaded_world (init "csv"))
     = Ok Sample.four_hubs
  /\ locations
       (final (init "csv") (load_locations Sample.lib Sample.loaded_world (init "csv")))
     = Sample.four_hubs.
Proof.
  assert (read_source Sample.loaded_world (init "csv")
          = Ok (Sample.rows_before ++ Sample.bad_row :: Sample.rows_after))
    as Hsrc by reflexivity.
  assert (malformed Sample.lib Sample.bad_row) as Hbad.
  { right. left. exists (PyStr "north"). split; [reflexivity|].
    left. exists "north"%string. split; reflexivity. }
  assert (convertible_coordinates Sample.bad_row) as Hconv.
  { intros v [H|H]; vm_compute in H; injection H as <-;
      intros [Hn|(z & Hz & _)]; discriminate. }
  split; [exact Hsrc|]. split; [exact Hbad|]. split; [exact Hconv|].
  destruct (malformed_row_skipped Sample.lib Sample.loaded_world (init "csv")
              Sample.rows_before Sample.rows_after Sample.bad_row Hsrc Hbad Hconv)
    as (_ & _ & Hload).
  assert (first_abort Sample.lib Sample.rows_before = None) as Hpre
    by (vm_compute; reflexivity).
  assert (first_abort Sample.lib Sample.rows_after = None) as Hpost
    by (vm_compute; reflexivity).
  destruct (Hload Hpre Hpost) as [Hv Hf].
  split.
  - rewrite Hv. vm_compute. reflexivity.
  - rewrite Hf. vm_compute. reflexivity.
Defined.

(** C7 as stated fails: of five records, the third has the integer
    [10 ** 400] for a latitude, a number far out of range.  The record
    is not skipped: [float] raises [OverflowError], which the row loop
    does not catch, and the load raises [LocationServiceError] with the
    registry left at the two hubs of the records before it; the two
    records after it are never read. *)
Lemma huge_latitude_aborts_load :
  Sample.huge_row !! "latitude" = Some (PyInt (10 ^ 400))
  /\ (90 < 10 ^ 400)%Z
  /\ read_source Sample.huge_world (init "csv")
     = Ok (Sample.rows_before ++ Sample.huge_row :: Sample.rows_after)
  /\ raises LocationServiceError
       (value (load_locations Sample.lib Sample.huge_world (init "csv")))
  /\ locations
       (final (init "csv") (load_locations Sample.lib Sample.huge_world (init "csv")))
     = [Sample.hub "1" 41.5 (-87.5) true; Sample.hub "2" 39.75 (-89.5) true].
Proof.
  split; [vm_compute; reflexivity|].
  split; [vm_compute; reflexivity|].
  split; [reflexivity|].
  split; vm_compute; reflexivity.
Qed.

(** An empty name cell is not a missing field either: the record is
    loaded, under the name that the validation of [str] fields makes of
    the cell. *)
Example unnamed_row_is_loaded :
  exists hub,
    make_location Sample.lib Sample.unnamed_row = Ok hub /\ name hub = "nan"%string.
Proof. eexists. split; vm_compute; reflexivity. Qed.

(** * Further properties of the service *)

Lemma option_string_eqb_eq (o : option string) (s : string) :
  option_string_eqb o s = true <-> o = Some s.
Proof.
  destruct o as [s'|]; simpl; [|split; discriminate].
  rewrite String.eqb_eq. split; [now intros ->|now intros [= ->]].
Qed.

Lemma slice_to_firstn {A : Type} (l : list A) (n : Z) :
  exists k, Py.slice_to l n = firstn k l.
Proof.
  unfold Py.slice_to. destruct (0 <=? n)%Z; eauto.
Qed.

Lemma In_firstn_In {A : Type} (k : nat) (l : list A) (x : A) :
  In x (firstn k l) -> In x l.
Proof.
  intros H. rewrite <- (firstn_skipn k l). apply in_or_app. now left.
Qed.

Lemma firstn_le_prefix {A : Type} (n m : nat) (l : list A) :
  (n <= m)%nat -> firstn m l = firstn n l ++ skipn n (firstn m l).
Proof.
  intros H. rewrite <- (firstn_skipn n (firstn m l)) at 1.
  now rewrite firstn_firstn, Nat.min_l.
Qed.

Lemma filter_sublist {A : Type} (f : A -> bool) (l : list A) :
  sublist (List.filter f l) l.
Proof.
  induction l as [|x l IH]; simpl; [constructor|].
  destruct (f x); now constructor.
Qed.

(** ** Searches *)

Section SearchFacts.
Variable haversine : Py.float * Py.float -> Py.float * Py.float -> Py.float.

Abbreviation nearest := (find_nearest_location haversine).
Abbreviation nearestN := (find_nearest_n_locations haversine).
Abbreviation active_of := active_locations.
Abbreviation dist := (calculate_distance haversine).
Abbreviation pairs c self := (List.map (with_distance haversine c) (active_of self)).

Lemma nearest_raises_iff (self : LocationService) (c : Coordinates) :
  raises LocationServiceError (nearest self c) <-> active_of self = [].
Proof.
  destruct (active_of self) as [|a l] eqn:Ha.
  - unfold find_nearest_location. rewrite Ha.
    destruct (locations self); simpl; split; auto.
  - assert (active_of self <> []) as Hne by (rewrite Ha; discriminate).
    destruct (min_exists snd (pairs c self) (pairs_nonempty haversine self c Hne))
      as (r & Hmin & _).
    rewrite (find_nearest_location_eq haversine self c Hne), Hmin. simpl.
    split; [contradiction|discriminate].
Qed.

Lemma nearestN_Ok_inv (self : LocationService) (c : Coordinates) (n : Z)
  (l : list (Location * Py.float)) :
  nearestN self c n = Ok l ->
  active_of self <> [] /\ l = Py.slice_to (Py.sorted snd (pairs c self)) n.
Proof.
  intros H. assert (active_of self <> []) as Hne.
  { intros Ha. revert H. unfold find_nearest_n_locations. rewrite Ha.
    destruct (locations self); discriminate. }
  split; [exact Hne|].
  rewrite (find_nearest_n_locations_eq haversine self c n Hne) in H. congruence.
Qed.

(** X2: whatever [n] is, every pair [find_nearest_n_locations] returns
    is an active hub of the registry with its own distance from the
    query point, and there are no more pairs than active hubs. *)
Theorem find_nearest_n_locations_genuine
  (self : LocationService) (c : Coordinates) (n : Z) (l : list (Location * Py.float)) :
  nearestN self c n = Ok l ->
  (length l <= length (active_of self))%nat
  /\ forall hub d, In (hub, d) l ->
       In hub (locations self) /\ active hub = true
       /\ d = dist c (coordinates hub).
Proof.
  intros H. apply nearestN_Ok_inv in H as [_ ->].
  destruct (slice_to_firstn (Py.sorted snd (pairs c self)) n) as [k ->].
  split.
  - rewrite length_firstn, sorted_length, length_map. lia.
  - intros hub d Hin. apply In_firstn_In in Hin.
    apply (Permutation_in _ (sorted_perm snd (pairs c self))) in Hin.
    apply in_map_iff in Hin as (h & Heq & Hin).
    rewrite with_distance_eq in Heq. injection Heq as -> <-.
    apply active_locations_In in Hin as [Hin Ha]. auto.
Qed.

(** X3: asking for more hubs never changes the ones already returned:
    for [0 <= n <= m] the result for [n] is a prefix of the result for
    [m]. *)
Theorem find_nearest_n_locations_prefix
  (self : LocationService) (c : Coordinates) (n m : Z) (l : list (Location * Py.float)) :
  (0 <= n <= m)%Z ->
  nearestN self c n = Ok l ->
  exists more, nearestN self c m = Ok (l ++ more).
Proof.
  intros Hnm H. apply nearestN_Ok_inv in H as [Hne ->].
  rewrite (find_nearest_n_locations_eq haversine self c m Hne).
  rewrite !slice_to_nonneg by lia.
  eexists. f_equal. apply firstn_le_prefix. lia.
Qed.

(** X4: an inactive hub is invisible to both searches: inserting one
    anywhere in a registry that has an active hub changes neither
    result. *)
Theorem inactive_hub_is_ignored
  (self self' : LocationService) (c : Coordinates) (n : Z)
  (pre post : list Location) (x : Location) :
  locations self = pre ++ post ->
  locations self' = pre ++ x :: post ->
  active x = false ->
  active_of self <> [] ->
  nearest self' c = nearest self c /\ nearestN self' c n = nearestN self c n.
Proof.
  intros Hl Hl' Hx Hne.
  assert (active_of self' = active_of self) as Heq.
  { unfold active_locations. rewrite Hl, Hl', !List.filter_app. simpl. now rewrite Hx. }
  assert (active_of self' <> []) as Hne' by now rewrite Heq.
  rewrite !find_nearest_location_eq, !find_nearest_n_locations_eq by assumption.
  now rewrite Heq.
Qed.

(** X5: the counts add up, none is negative, and the active count is
    zero exactly when [find_nearest_location] has no candidate and
    raises. *)
Theorem get_locations_count_consistent (self : LocationService) (c : Coordinates) :
  (total (get_locations_count self) =
   active_count (get_locations_count self) + inactive_count (get_locations_count self))%Z
  /\ (0 <= active_count (get_locations_count self))%Z
  /\ (0 <= inactive_count (get_locations_count self))%Z
  /\ active_count (get_locations_count self) = Z.of_nat (length (active_of self))
  /\ (active_count (get_locations_count self) = 0%Z
      <-> raises LocationServiceError (nearest self c)).
Proof.
  unfold get_locations_count. cbn [total active_count inactive_count].
  pose proof (filter_length_le active (locations self)) as Hle.
  repeat split; try lia.
  - intros H. apply nearest_raises_iff. unfold active_locations.
    destruct (List.filter active (locations self)); [reflexivity|simpl in H; lia].
  - intros H. apply nearest_raises_iff in H. unfold active_locations in H.
    now rewrite H.
Qed.
End SearchFacts.

(** ** Lookups *)

(** X6: [get_location_by_id] returns a hub exactly when that hub carries
    the id and no hub before it in the registry does: the first match
    wins. *)
Theorem get_location_by_id_first
  (self : LocationService) (location_id : string) (hub : Location) :
  get_location_by_id self location_id = Some hub
  <-> exists pre post,
        locations self = pre ++ hub :: post
        /\ id hub = Some location_id
        /\ Forall (fun x => id x <> Some location_id) pre.
Proof.
  unfold get_location_by_id. generalize (locations self) as l.
  induction l as [|x l IH]; simpl.
  - split; [discriminate|]. intros (pre & post & H & _). now destruct pre.
  - destruct (option_string_eqb (id x) location_id) eqn:E.
    + apply option_string_eqb_eq in E. split.
      * intros [= <-]. exists [], l. repeat split; [assumption|constructor].
      * intros (pre & post & H & Hid & Hpre).
        destruct pre as [|y pre]; simpl in H; injection H as -> ->; [reflexivity|].
        apply Forall_inv in Hpre. contradiction.
    + assert (id x <> Some location_id) as Hx.
      { intros H. apply option_string_eqb_eq in H. congruence. }
      rewrite IH. split.
      * intros (pre & post & -> & Hid & Hpre).
        exists (x :: pre), post. repeat split; [assumption|now constructor].
      * intros (pre & post & H & Hid & Hpre).
        destruct pre as [|y pre]; simpl in H; injection H as -> ->; [contradiction|].
        exists pre, post. repeat split; [assumption|].
        now apply Forall_inv_tail in Hpre.
Qed.

(** X7: [get_location_by_id] returns [None] exactly when no hub of the
    registry carries the id; a hub loaded without an id is never found. *)
Theorem get_location_by_id_none_iff (self : LocationService) (location_id : string) :
  get_location_by_id self location_id = None
  <-> Forall (fun x => id x <> Some location_id) (locations self).
Proof.
  unfold get_location_by_id. generalize (locations self) as l.
  induction l as [|x l IH]; simpl.
  - split; [constructor|reflexivity].
  - destruct (option_string_eqb (id x) location_id) eqn:E.
    + apply option_string_eqb_eq in E. split; [discriminate|].
      intros H. apply Forall_inv in H. contradiction.
    + assert (id x <> Some location_id) as Hx.
      { intros H. apply option_string_eqb_eq in H. congruence. }
      rewrite IH. split; [now constructor|apply Forall_inv_tail].
Qed.

(** X8: [get_locations_by_region] returns the hubs tagged with the
    region and no others, in registry order; a hub without a region tag
    is in no region. *)
Theorem get_locations_by_region_exact (self : LocationService) (reg : string) :
  sublist (get_locations_by_region self reg) (locations self)
  /\ forall hub, In hub (get_locations_by_region self reg)
       <-> In hub (locations self) /\ region hub = Some reg.
Proof.
  unfold get_locations_by_region. split; [apply filter_sublist|].
  intros hub. now rewrite filter_In, option_string_eqb_eq.
Qed.

(** ** Coordinates and rows *)

(** X15: [Coordinates] accepts a latitude and a longitude exactly when
    both are finite and within [-90, 90] and [-180, 180], bounds
    included, and it stores them unchanged. *)
Theorem Coordinates_new_accepts_iff (lat lon : PyFloat) (c : Coordinates) :
  Coordinates_new lat lon = Ok c
  <-> lat = Fin (latitude c) /\ lon = Fin (longitude c)
      /\ (-90 <= latitude c <= 90)%Q /\ (-180 <= longitude c <= 180)%Q.
Proof.
  split.
  - intros H. apply Coordinates_new_Ok in H as [H1 H2].
    apply ge_le_Ok in H1 as [-> H1], H2 as [-> H2]. auto.
  - destruct c as [a b]. simpl. intros (-> & -> & [Ha1 Ha2] & [Hb1 Hb2]).
    apply Qle_bool_iff in Ha1, Ha2, Hb1, Hb2.
    unfold Coordinates_new. simpl. rewrite Ha1, Ha2. simpl. now rewrite Hb1, Hb2.
Qed.

Section RowFacts.
Variable lib : PyLib.

(** The fields of an accepted row that do not pass through a validator. *)
Lemma make_location_id_active (row : Row) (loc : Location) :
  make_location lib row = Ok loc ->
  id loc = Some (py_str lib (get_default row "id" (PyStr "")))
  /\ active loc = py_bool (get_default row "active" (PyBool true)).
Proof.
  unfold make_location. intros H.
  repeat (apply bind_Ok in H as (? & _ & H)).
  injection H as <-. split; reflexivity.
Qed.

Lemma py_bool_false_iff (v : PyVal) :
  py_bool v = false
  <-> v = PyBool false \/ v = PyInt 0 \/ v = PyStr "" \/ v = PyNone
      \/ exists q, v = PyFloatV (Fin q) /\ (q == 0)%Q.
Proof.
  destruct v as [s|z|[q| | |]|b|]; simpl.
  - rewrite negb_false_iff, String.eqb_eq. split.
    + intros ->. auto.
    + intros [H|[H|[H|[H|(q & H & _)]]]]; congruence.
  - rewrite negb_false_iff, Z.eqb_eq. split.
    + intros ->. auto.
    + intros [H|[H|[H|[H|(q & H & _)]]]]; congruence.
  - rewrite negb_false_iff, Qeq_bool_iff. split.
    + intros H. right. right. right. right. eauto.
    + intros [H|[H|[H|[H|(q' & [= ->] & H)]]]]; try discriminate. exact H.
  - split; [discriminate|]. intros [H|[H|[H|[H|(q & H & _)]]]]; discriminate.
  - split; [discriminate|]. intros [H|[H|[H|[H|(q & H & _)]]]]; discriminate.
  - split; [discriminate|]. intros [H|[H|[H|[H|(q & H & _)]]]]; discriminate.
  - split.
    + intros ->. auto.
    + intros [H|[H|[H|[H|(q & H & _)]]]]; congruence.
  - split; [auto 6|reflexivity].
Qed.

(** X14: a loaded hub is inactive only when its row has an [active]
    cell that is [False], zero, the empty string or [None]; a row
    without the column, and a row whose cell is any non-empty text,
    gives an active hub. *)
Theorem make_location_active_flag (row : Row) (loc : Location) :
  make_location lib row = Ok loc ->
  (active loc = false
   <-> exists v, row !! "active" = Some v
         /\ (v = PyBool false \/ v = PyInt 0 \/ v = PyStr "" \/ v = PyNone
             \/ exists q, v = PyFloatV (Fin q) /\ (q == 0)%Q))
  /\ (row !! "active" = None -> active loc = true)
  /\ (forall s, row !! "active" = Some (PyStr s) -> s <> ""%string -> active loc = true).
Proof.
  intros H. apply make_location_id_active in H as [_ ->].
  unfold get_default. destruct (row !! "active") as [v|] eqn:E.
  - split; [split|split].
    + intros Hv. exists v. split; [reflexivity|]. now apply py_bool_false_iff.
    + intros (v' & [= <-] & Hv). now apply py_bool_false_iff.
    + discriminate.
    + intros s [= ->] Hs. simpl. apply negb_true_iff.
      now apply String.eqb_neq.
  - split; [split|split].
    + discriminate.
    + intros (v & Hv & _). discriminate.
    + reflexivity.
    + discriminate.
Qed.

Lemma loaded_hubs_sublist (rows : list Row) :
  (length (loaded_hubs lib rows) <= length rows)%nat
  /\ exists kept,
       sublist kept rows
       /\ Forall2 (fun row hub => make_location lib row = Ok hub)
            kept (loaded_hubs lib rows).
Proof.
  induction rows as [|row rows (Hlen & kept & Hsub & Hall)]; simpl.
  - split; [lia|]. exists []. split; constructor.
  - destruct (make_location lib row) as [hub|e] eqn:E; simpl.
    + split; [lia|]. exists (row :: kept). split; now constructor.
    + split; [lia|]. exists kept. split; [now constructor|assumption].
Qed.

(** X13: after a load that returns, the registry holds at most one hub
    per record, in the order of the records: its hubs are the hubs of a
    subsequence of the rows, row by row. *)
Theorem loaded_hubs_in_row_order (w : World) (self : LocationService) (rows : list Row) :
  read_source w self = Ok rows ->
  (length (locations (final self (load_locations lib w self))) <= length rows)%nat
  /\ exists kept,
       sublist kept rows
       /\ Forall2 (fun row hub => make_location lib row = Ok hub)
            kept (locations (final self (load_locations lib w self))).
Proof.
  intros Hsrc.
  rewrite (load_locations_registry lib w self rows Hsrc).
  destruct (loaded_hubs_sublist (processed lib rows)) as (Hlen & kept & Hsub & Hall).
  pose proof (processed_sublist lib rows) as Hp.
  split.
  - apply sublist_length in Hp. lia.
  - exists kept. split; [|exact Hall]. now transitivity (processed lib rows).
Qed.

(** X10: after a load that returns, every hub of the registry has a
    latitude within [-90, 90], a longitude within [-180, 180] and an
    id. *)
Theorem loaded_hubs_in_range (w : World) (self : LocationService) (rows : list Row) :
  read_source w self = Ok rows ->
  Forall (fun hub =>
            (-90 <= latitude (coordinates hub) <= 90)%Q
            /\ (-180 <= longitude (coordinates hub) <= 180)%Q
            /\ id hub <> None)
    (locations (final self (load_locations lib w self))).
Proof.
  intros Hsrc.
  rewrite (load_locations_registry lib w self rows Hsrc).
  apply List.Forall_forall. intros hub Hin.
  apply loaded_hubs_In in Hin as (row & _ & Hrow).
  pose proof (make_location_id_active row hub Hrow) as [Hid _].
  apply make_location_Ok in Hrow
    as (_ & _ & _ & _ & lat & lon & _ & _ & _ & _ & _ & _ & Hlat & Hlon).
  apply ge_le_Ok in Hlat as [_ Hlat], Hlon as [_ Hlon].
  repeat split; try tauto. congruence.
Qed.

Lemma read_source_data_source_type (w : World) (self self' : LocationService) :
  data_source_type self' = data_source_type self ->
  read_source w self' = read_source w self.
Proof. unfold read_source. now intros ->. Qed.

(** A load that returns has read its source and was not stopped. *)
Lemma load_locations_Ok (w : World) (self : LocationService) (l : list Location) :
  value (load_locations lib w self) = Ok l ->
  exists rows,
    read_source w self = Ok rows /\ first_abort lib rows = None
    /\ l = loaded_hubs lib rows.
Proof.
  intros H. destruct (read_source w self) as [rows|e] eqn:E.
  - destruct (load_locations_loaded lib w self rows E) as [_ Hv].
    rewrite Hv in H. unfold load_value in H.
    destruct (first_abort lib rows) as [e|] eqn:Ea; [discriminate|].
    injection H as <-. exists rows. repeat split. exact Ea.
  - rewrite (load_locations_failed lib w self e E) in H. discriminate.
Qed.

(** X11: a load that returns replaces the registry: its source was
    read, and the service then holds exactly the hubs of the accepted
    rows, whatever it held before, [last_loaded] is the time of the
    load, the source type is untouched, and the list returned is the
    list stored. *)
Theorem load_locations_replaces
  (w : World) (self : LocationService) (l : list Location) :
  value (load_locations lib w self) = Ok l ->
  exists rows,
    read_source w self = Ok rows
    /\ l = loaded_hubs lib rows
    /\ locations (final self (load_locations lib w self)) = l
    /\ last_loaded (final self (load_locations lib w self)) = Some (utcnow w)
    /\ data_source_type (final self (load_locations lib w self)) = data_source_type self.
Proof.
  intros H. destruct (load_locations_Ok w self l H) as (rows & Hsrc & Ha & ->).
  exists rows. rewrite (load_locations_final lib w self rows Hsrc).
  unfold load_leaves. rewrite Ha. repeat split. exact Hsrc.
Qed.

(** X12: reloading from an unchanged source changes nothing: the
    service after [load_locations] followed by [reload_locations] is the
    service after [load_locations], and both calls return the same
    list. *)
Theorem reload_is_idempotent (w : World) (self : LocationService) (rows : list Row) :
  read_source w self = Ok rows ->
  final (final self (load_locations lib w self))
    (reload_locations lib w (final self (load_locations lib w self)))
  = final self (load_locations lib w self)
  /\ value (reload_locations lib w (final self (load_locations lib w self)))
     = value (load_locations lib w self).
Proof.
  intros Hsrc. unfold reload_locations.
  pose proof (load_locations_final lib w self rows Hsrc) as Hf.
  assert (data_source_type (final self (load_locations lib w self))
          = data_source_type self) as Hd.
  { rewrite Hf. unfold load_leaves. now destruct (first_abort lib rows). }
  assert (read_source w (final self (load_locations lib w self)) = Ok rows) as Hsrc'.
  { rewrite <- Hsrc. now apply read_source_data_source_type. }
  destruct (load_locations_loaded lib w _ rows Hsrc') as [_ ->].
  destruct (load_locations_loaded lib w self rows Hsrc) as [_ ->].
  rewrite (load_locations_final lib w _ rows Hsrc'), Hd.
  split; [|reflexivity].
  rewrite Hf. unfold load_leaves.
  now destruct (first_abort lib rows).
Qed.
End RowFacts.

(** ** Configuration and the loader *)

Lemma existsb_eqb_In (v : string) (l : list string) :
  existsb (String.eqb v) l = true <-> In v l.
Proof.
  rewrite existsb_exists. split.
  - intros (x & Hin & Heq). apply String.eqb_eq in Heq. now subst.
  - intros Hin. exists v. split; [assumption|apply String.eqb_refl].
Qed.

(** X16: the validator of [DATA_SOURCE_TYPE] rejects a value exactly
    when [load_locations] on a service configured with it can only fail
    with "Unsupported data source type"; it accepts the three types the
    loader dispatches on and nothing else. *)
Theorem validate_data_source_type_matches_loader (lib : PyLib) (v : string) :
  (validate_data_source_type v = Ok v \/ raises ValueError (validate_data_source_type v))
  /\ (raises ValueError (validate_data_source_type v)
      <-> forall w,
            value (load_locations lib w (init v)) =
            raise LocationServiceError
              ("Failed to load locations: Unsupported data source type: " ++ v)%string).
Proof.
  unfold validate_data_source_type.
  destruct (existsb (String.eqb v) ["csv"; "google_sheets"; "postgres"]) eqn:E.
  - split; [now left|]. split; [contradiction|].
    intros H. specialize (H Sample.missing_world).
    apply existsb_eqb_In in E. simpl in E.
    destruct E as [<-|[<-|[<-|[]]]]; discriminate H.
  - split; [right; reflexivity|]. split; [|reflexivity].
    intros _ w. simpl in E.
    apply orb_false_iff in E as [E1 E]. apply orb_false_iff in E as [E2 E].
    apply orb_false_iff in E as [E3 _].
    unfold load_locations, init. cbn [data_source_type].
    now rewrite E1, E2, E3.
Qed.

(** X17: the dependency gives every request a service loaded at that
    moment: it yields a service exactly when the source can be read and
    no row stops the row loop, the service then holds the hubs of the
    accepted rows, and otherwise the [LocationServiceError] of the load
    escapes. *)
Theorem get_location_service_loads (lib : PyLib) (w : World) (DATA_SOURCE_TYPE : string) :
  match read_source w (init DATA_SOURCE_TYPE) with
  | Ok rows =>
    match first_abort lib rows with
    | None =>
      get_location_service lib w DATA_SOURCE_TYPE =
      Ok {| locations := loaded_hubs lib rows;
            last_loaded := Some (utcnow w);
            data_source_type := DATA_SOURCE_TYPE |}
    | Some e =>
      get_location_service lib w DATA_SOURCE_TYPE =
      raise LocationServiceError
        ("Failed to load locations: Error loading from "
         ++ source_name DATA_SOURCE_TYPE ++ ": " ++ snd e)%string
    end
  | Raised e =>
    get_location_service lib w DATA_SOURCE_TYPE =
    raise LocationServiceError ("Failed to load locations: " ++ snd e)%string
  end.
Proof.
  unfold get_location_service. cbn [init locations].
  destruct (read_source w (init DATA_SOURCE_TYPE)) as [rows|e] eqn:E.
  - destruct (load_locations_loaded lib w _ rows E) as [_ Hv].
    rewrite Hv, (load_locations_final lib w _ rows E).
    unfold load_value, load_leaves.
    destruct (first_abort lib rows); reflexivity.
  - now rewrite (load_locations_failed lib w _ e E).
Qed.

(** ** Routes *)

(** X18: [GET /locations] always responds, with the hubs of the
    registry in registry order, restricted to the active ones when
    [active_only] is set and to a region when a non-empty [region] is
    given; an empty [region] filters nothing.  Without [active_only] and
    with a region it is [get_locations_by_region]. *)
Theorem get_locations_filters
  (self : LocationService) (active_only : bool) (reg : option string) :
  exists l,
    get_locations self active_only reg = Respond l
    /\ sublist l (locations self)
    /\ (forall hub, In hub l <->
          In hub (locations self)
          /\ (active_only = true -> active hub = true)
          /\ (forall s, reg = Some s -> s <> ""%string -> region hub = Some s))
    /\ (forall s, active_only = false -> reg = Some s -> s <> ""%string ->
          l = get_locations_by_region self s).
Proof.
  unfold get_locations. eexists. split; [reflexivity|].
  assert (forall s, s <> ""%string -> String.eqb s "" = false) as Hne
    by (intros s; apply String.eqb_neq).
  destruct reg as [s|]; cbn [falsy default].
  - destruct (String.eqb s "") eqn:Es; cbn [negb].
    + apply String.eqb_eq in Es. subst s. destruct active_only.
      * split; [apply filter_sublist|]. split.
        -- intros hub. rewrite filter_In. split.
           ++ intros [H1 H2]. repeat split; auto. intros s [= <-] Hs. congruence.
           ++ intros (H1 & H2 & _). auto.
        -- discriminate.
      * split; [reflexivity|]. split.
        -- intros hub. split.
           ++ intros H. repeat split; auto; [discriminate|].
              intros s [= <-] Hs. congruence.
           ++ tauto.
        -- intros s _ [= <-] Hs. congruence.
    + assert (s <> ""%string) as Hs by now apply String.eqb_neq.
      destruct active_only.
      * split; [etransitivity; apply filter_sublist|]. split.
        -- intros hub. rewrite !filter_In, option_string_eqb_eq. split.
           ++ intros [[H1 H2] H3]. repeat split; auto. now intros s' [= <-] _.
           ++ intros (H1 & H2 & H3). auto.
        -- discriminate.
      * split; [apply filter_sublist|]. split.
        -- intros hub. rewrite filter_In, option_string_eqb_eq. split.
           ++ intros [H1 H3]. repeat split; auto; [discriminate|].
              now intros s' [= <-] _.
           ++ intros (H1 & _ & H3). auto.
        -- now intros s' _ [= <-] _.
  - cbn [negb]. destruct active_only.
    + split; [apply filter_sublist|]. split.
      * intros hub. rewrite filter_In. split.
        -- intros [H1 H2]. repeat split; auto. discriminate.
        -- intros (H1 & H2 & _). auto.
      * discriminate.
    + split; [reflexivity|]. split.
      * intros hub. split; [|tauto].
        intros H. repeat split; auto; discriminate.
      * discriminate.
Qed.

Section MatchingFacts.
Variable haversine : Py.float * Py.float -> Py.float * Py.float -> Py.float.
Variable to_miles : Py.float -> Py.float.

Abbreviation nearest := (find_nearest_location haversine).
Abbreviation dist := (calculate_distance haversine).
Abbreviation match_one := (match_address haversine to_miles).
Abbreviation batch := (batch_match_addresses haversine to_miles).
Abbreviation loop := (batch_loop haversine to_miles).

Lemma nearest_cases (self : LocationService) (c : Coordinates) :
  (active_locations self <> [] /\ exists hub d, nearest self c = Ok (hub, d))
  \/ (active_locations self = []
      /\ exists msg, nearest self c = raise LocationServiceError msg).
Proof.
  destruct (active_locations self) as [|a l] eqn:Ha.
  - right. split; [reflexivity|]. unfold find_nearest_location. rewrite Ha.
    destruct (locations self); eauto.
  - left. split; [discriminate|].
    assert (active_locations self <> []) as Hne by (rewrite Ha; discriminate).
    destruct (min_exists snd _ (pairs_nonempty haversine self c Hne))
      as ([hub d] & Hmin & _).
    exists hub, d. now rewrite (find_nearest_location_eq haversine self c Hne), Hmin.
Qed.

(** X19: [POST /match] responds with a match exactly when the geocoder
    resolves the address and the registry has an active hub.  Otherwise
    it raises 400 for a [GeocodingError] and 500 for everything else,
    and in either case it queues no notification. *)
Theorem match_address_responds_iff
  (address_input : AddressInput.t) (tasks : list Task)
  (geocoding_service : string -> Geocode) (self : LocationService)
  (send_notification : bool) (elapsed_ms : Py.float) (now : datetime) :
  ((exists r, fst (match_one address_input tasks geocoding_service self
                     send_notification elapsed_ms now) = Respond r)
   <-> (exists c a, geocoding_service (AddressInput.address address_input) = Geocoded c a)
       /\ active_locations self <> [])
  /\ (forall status detail,
        fst (match_one address_input tasks geocoding_service self
               send_notification elapsed_ms now) = HTTPException status detail ->
        snd (match_one address_input tasks geocoding_service self
               send_notification elapsed_ms now) = tasks
        /\ (status = 400%Z \/ status = 500%Z)
        /\ (status = 400%Z <->
            exists msg, geocoding_service (AddressInput.address address_input)
                        = GeocodingError msg)).
Proof.
  unfold match_address.
  destruct (geocoding_service (AddressInput.address address_input)) as [c a|msg|msg].
  - destruct (nearest_cases self c) as [(Hne & hub & d & ->)|(He & msg & ->)].
    + split.
      * split; [intros _; split; eauto|intros _; simpl; eauto].
      * simpl. discriminate.
    + split.
      * split; [intros [r Hr]; discriminate Hr|intros [_ H]; contradiction].
      * simpl. intros status detail [= <- <-].
        repeat split; auto; [discriminate|intros [m Hm]; discriminate].
  - split.
    + split; [intros [r Hr]; discriminate Hr|intros [(c & a & H) _]; discriminate].
    + simpl. intros status detail [= <- <-]. repeat split; eauto.
  - split.
    + split; [intros [r Hr]; discriminate Hr|intros [(c & a & H) _]; discriminate].
    + simpl. intros status detail [= <- <-].
      repeat split; auto; [discriminate|intros [m Hm]; discriminate].
Qed.

(** X20: a match that [POST /match] returns names an active hub of the
    registry that no active hub beats for distance to the geocoded
    point, reports that distance and the geocoder's outputs unchanged,
    and queues exactly one notification for it when notifications are
    requested and none otherwise. *)
Theorem match_address_result
  (address_input : AddressInput.t) (tasks : list Task)
  (geocoding_service : string -> Geocode) (self : LocationService)
  (send_notification : bool) (elapsed_ms : Py.float) (now : datetime)
  (r : MatchResult.t) (tasks' : list Task) :
  match_one address_input tasks geocoding_service self send_notification elapsed_ms now
  = (Respond r, tasks') ->
  geocoding_service (AddressInput.address address_input)
  = Geocoded (MatchResult.geocoded_coordinates r) (MatchResult.geocoded_address r)
  /\ MatchResult.input_address r = AddressInput.address address_input
  /\ In (MatchResult.matched_location r) (locations self)
  /\ active (MatchResult.matched_location r) = true
  /\ MatchResult.distance_km r =
       dist (MatchResult.geocoded_coordinates r)
         (coordinates (MatchResult.matched_location r))
  /\ (forall h, In h (locations self) -> active h = true ->
        ~ (dist (MatchResult.geocoded_coordinates r) (coordinates h)
           < MatchResult.distance_km r)%Q)
  /\ MatchResult.distance_miles r = to_miles (MatchResult.distance_km r)
  /\ tasks' =
       if send_notification
       then tasks ++ [{| task_match_result := r; task_address_input := address_input |}]
       else tasks.
Proof.
  unfold match_address.
  destruct (geocoding_service (AddressInput.address address_input)) as [c a|msg|msg];
    [|discriminate|discriminate].
  destruct (nearest self c) as [[hub d]|[[] msg]] eqn:E; try discriminate.
  intros [= <- <-]. cbn.
  assert (active_locations self <> []) as Hne.
  { intros Ha. revert E. unfold find_nearest_location. rewrite Ha.
    destruct (locations self); discriminate. }
  rewrite (find_nearest_location_eq haversine self c Hne) in E.
  destruct (min_exists snd _ (pairs_nonempty haversine self c Hne))
    as (p & Hmin & Hleast).
  rewrite Hmin in E. injection E as ->.
  pose proof (first_least_In snd _ _ Hleast) as Hin.
  apply in_map_iff in Hin as (h0 & Heq & Hin0).
  rewrite with_distance_eq in Heq. injection Heq as -> <-.
  apply active_locations_In in Hin0 as [Hin0 Ha].
  repeat split; try assumption; try reflexivity.
  intros h Hh Hha Hlt.
  assert (In (with_distance haversine c h)
            (List.map (with_distance haversine c) (active_locations self))) as Hp.
  { apply in_map, active_locations_In. now split. }
  pose proof (first_least_le snd _ _ Hleast _ Hp) as Hle.
  rewrite with_distance_eq in Hle. simpl in Hle. lra.
Qed.

Lemma batch_loop_spec
  (geocoding_service : string -> Geocode) (self : LocationService)
  (send_notification : bool) (now : nat -> datetime)
  (addresses : list AddressInput.t) (i : nat)
  (results : list MatchResult.t) (tasks : list Task) :
  exists R T,
    loop addresses i results tasks geocoding_service self send_notification now
    = (results ++ R, tasks ++ T)
    /\ List.map task_match_result T = (if send_notification then R else [])
    /\ Forall (fun r =>
                 nearest self (MatchResult.geocoded_coordinates r)
                 = Ok (MatchResult.matched_location r, MatchResult.distance_km r))
         R
    /\ Forall (fun r =>
                 geocoding_service (MatchResult.input_address r)
                 = Geocoded (MatchResult.geocoded_coordinates r)
                     (MatchResult.geocoded_address r))
         R
    /\ (active_locations self <> [] ->
        List.map MatchResult.input_address R =
        List.map AddressInput.address
          (List.filter (geocodes geocoding_service) addresses))
    /\ (active_locations self = [] -> R = [])
    /\ (length R <= length addresses)%nat.
Proof.
  revert i results tasks.
  induction addresses as [|a addresses IH]; intros i results tasks.
  - exists [], []. cbn [batch_loop]. rewrite !app_nil_r.
    repeat split; auto. now destruct send_notification.
  - cbn [batch_loop List.filter]. unfold geocodes at 1.
    destruct (geocoding_service (AddressInput.address a)) as [c fa|msg|msg] eqn:G.
    + destruct (nearest_cases self c) as [(Hne & hub & d & E)|(He & msg & E)];
        rewrite E.
      * match goal with
        | |- context [loop addresses (S i) (results ++ [?mr]) ?ts] =>
          destruct (IH (S i) (results ++ [mr]) ts)
            as (R & T & -> & HT & HR & HG & Hin & Hemp & Hlen);
          exists (mr :: R)
        end.
        destruct send_notification.
        -- eexists (_ :: T). rewrite <- !app_assoc. cbn [app].
           split; [reflexivity|]. split; [cbn; now rewrite HT|].
           split; [constructor; [exact E|exact HR]|].
           split; [constructor; [exact G|exact HG]|].
           split; [intros _; cbn; now rewrite (Hin Hne)|].
           split; [contradiction|cbn; lia].
        -- exists T. rewrite <- !app_assoc. cbn [app].
           split; [reflexivity|]. split; [exact HT|].
           split; [constructor; [exact E|exact HR]|].
           split; [constructor; [exact G|exact HG]|].
           split; [intros _; cbn; now rewrite (Hin Hne)|].
           split; [contradiction|cbn; lia].
      * unfold raise.
        destruct (IH (S i) results tasks)
          as (R & T & -> & HT & HR & HG & Hin & Hemp & Hlen).
        exists R, T. repeat split; auto; [contradiction|cbn; lia].
    + destruct (IH (S i) results tasks)
          as (R & T & -> & HT & HR & HG & Hin & Hemp & Hlen).
      exists R, T. repeat split; auto. cbn; lia.
    + destruct (IH (S i) results tasks)
          as (R & T & -> & HT & HR & HG & Hin & Hemp & Hlen).
      exists R, T. repeat split; auto. cbn; lia.
Qed.

(** X21: a batch is refused, with 400 and before any address is looked
    at, exactly when it holds more addresses than [max_batch_size];
    otherwise the request is always answered 200, whatever goes wrong
    for single addresses, with at most one match per address. *)
Theorem batch_size_limit
  (addresses : list AddressInput.t) (tasks : list Task)
  (geocoding_service : string -> Geocode) (self : LocationService)
  (send_notification : bool) (max_batch_size : Z) (now : nat -> datetime) :
  ((max_batch_size < Z.of_nat (length addresses))%Z
   /\ batch addresses tasks geocoding_service self send_notification max_batch_size now
      = (HTTPException 400
           ("Batch size exceeds maximum of " ++ pretty max_batch_size)%string,
         tasks))
  \/ ((Z.of_nat (length addresses) <= max_batch_size)%Z
      /\ exists results queued,
           batch addresses tasks geocoding_service self send_notification
             max_batch_size now
           = (Respond results, tasks ++ queued)
           /\ (length results <= length addresses)%nat
           /\ (length queued <= length results)%nat).
Proof.
  unfold batch_match_addresses.
  destruct (Z.of_nat (length addresses) >? max_batch_size)%Z eqn:E.
  - left. split; [lia|reflexivity].
  - right. split; [lia|].
    destruct (batch_loop_spec geocoding_service self send_notification now addresses
                0 [] tasks) as (R & T & -> & HT & _ & _ & _ & _ & Hlen).
    exists R, T. cbn [app]. repeat split; auto.
    rewrite <- (length_map task_match_result T), HT.
    destruct send_notification; simpl; lia.
Qed.

(** X22: for a batch within the limit and a registry with an active
    hub, the response holds one match per address the geocoder
    resolves, in the order of the addresses, each carrying the point
    and the formatted address the geocoder gives for its address and
    naming the hub [find_nearest_location] returns for that point, and
    it queues one notification per match when notifications are
    requested. *)
Theorem batch_match_addresses_results
  (addresses : list AddressInput.t) (tasks : list Task)
  (geocoding_service : string -> Geocode) (self : LocationService)
  (send_notification : bool) (max_batch_size : Z) (now : nat -> datetime) :
  (Z.of_nat (length addresses) <= max_batch_size)%Z ->
  active_locations self <> [] ->
  exists results queued,
    batch addresses tasks geocoding_service self send_notification max_batch_size now
    = (Respond results, tasks ++ queued)
    /\ List.map MatchResult.input_address results =
       List.map AddressInput.address (List.filter (geocodes geocoding_service) addresses)
    /\ Forall (fun r =>
                 geocoding_service (MatchResult.input_address r)
                 = Geocoded (MatchResult.geocoded_coordinates r)
                     (MatchResult.geocoded_address r))
         results
    /\ Forall (fun r =>
                 nearest self (MatchResult.geocoded_coordinates r)
                 = Ok (MatchResult.matched_location r, MatchResult.distance_km r))
         results
    /\ List.map task_match_result queued = (if send_notification then results else []).
Proof.
  intros Hlen Hne. unfold batch_match_addresses.
  destruct (Z.of_nat (length addresses) >? max_batch_size)%Z eqn:E; [lia|].
  destruct (batch_loop_spec geocoding_service self send_notification now addresses
              0 [] tasks) as (R & T & -> & HT & HR & HG & Hin & _ & _).
  exists R, T. cbn [app]. repeat split; auto.
Qed.

(** X23: when no hub is active, a batch within the limit still responds
    200, with an empty list: the [LocationServiceError] of every address
    is swallowed, and nothing is queued. *)
Theorem batch_without_active_hub
  (addresses : list AddressInput.t) (tasks : list Task)
  (geocoding_service : string -> Geocode) (self : LocationService)
  (send_notification : bool) (max_batch_size : Z) (now : nat -> datetime) :
  (Z.of_nat (length addresses) <= max_batch_size)%Z ->
  active_locations self = [] ->
  batch addresses tasks geocoding_service self send_notification max_batch_size now
  = (Respond [], tasks).
Proof.
  intros Hlen He. unfold batch_match_addresses.
  destruct (Z.of_nat (length addresses) >? max_batch_size)%Z eqn:E; [lia|].
  destruct (batch_loop_spec geocoding_service self send_notification now addresses
              0 [] tasks) as (R & T & -> & HT & _ & _ & _ & Hemp & _).
  rewrite (Hemp He) in *. destruct T; [|now destruct send_notification].
  cbn [app]. now rewrite app_nil_r.
Qed.
End MatchingFacts.

(** ** Phone numbers *)

Lemma digits_only_app (s1 s2 : string) :
  digits_only (s1 ++ s2)%string = (digits_only s1 ++ digits_only s2)%string.
Proof.
  induction s1 as [|c s1 IH]; simpl; [reflexivity|].
  destruct (is_digit c); simpl; now rewrite IH.
Qed.

(** X24: only the digits of a phone number count: inserting a character
    that is not a digit anywhere in it changes neither whether
    [validate_phone] accepts it nor the fact that an accepted number is
    kept exactly as written. *)
Theorem validate_phone_ignores_formatting (s1 s2 : string) (c : ascii) :
  is_digit c = false ->
  (validate_phone (Some (s1 ++ String c s2)%string) = Ok (Some (s1 ++ String c s2)%string)
   <-> validate_phone (Some (s1 ++ s2)%string) = Ok (Some (s1 ++ s2)%string))
  /\ (raises ValueError (validate_phone (Some (s1 ++ String c s2)%string))
      <-> raises ValueError (validate_phone (Some (s1 ++ s2)%string))).
Proof.
  intros Hc. unfold validate_phone.
  rewrite !digits_only_app. cbn [digits_only]. rewrite Hc.
  destruct (negb _); simpl; split; split; auto; discriminate.
Qed.

(** ** The generic webhook *)

Section WebhookFacts.
Variable haversine : Py.float * Py.float -> Py.float * Py.float -> Py.float.
Variable to_miles : Py.float -> Py.float.
Variable Any : Type.
Variable parse_address_input :
  Any -> Any -> option Any -> option Any -> option Any -> option Any ->
  result AddressInput.t.
Variable payload_digest : string -> gmap string Any -> option string.
Variable str_HTTPException : Z -> string -> string.

Abbreviation handle :=
  (handle_generic_webhook haversine to_miles Any parse_address_input payload_digest
     str_HTTPException).
Abbreviation input_of := (address_input_of_payload Any parse_address_input).
Abbreviation accepted := (signature_accepted payload_digest).

Lemma handle_rejected
  (secret : option string) (payload : gmap string Any) (tasks : list Task)
  (geocoding_service : string -> Geocode) (self : LocationService)
  (sig : option string) (elapsed_ms : Py.float) (now : datetime) :
  accepted secret payload sig = false ->
  exists detail,
    handle secret payload tasks geocoding_service self sig elapsed_ms now
    = (HTTPException 401 detail, tasks).
Proof.
  unfold signature_accepted, handle_generic_webhook.
  destruct (falsy secret); [discriminate|]. cbn [orb negb andb].
  destruct (falsy sig); [eauto|]. cbn [negb andb].
  intros ->. cbn [negb]. eauto.
Qed.

Lemma handle_accepted
  (secret : option string) (payload : gmap string Any) (tasks : list Task)
  (geocoding_service : string -> Geocode) (self : LocationService)
  (sig : option string) (elapsed_ms : Py.float) (now : datetime) :
  accepted secret payload sig = true ->
  handle secret payload tasks geocoding_service self sig elapsed_ms now
  = handle None payload tasks geocoding_service self sig elapsed_ms now.
Proof.
  unfold signature_accepted, handle_generic_webhook.
  destruct (falsy secret); [reflexivity|]. cbn [orb negb andb falsy].
  destruct (falsy sig); [discriminate|]. cbn [negb andb].
  now intros ->.
Qed.

(** X25: the generic webhook answers 401 exactly when a secret is
    configured and the request carries no signature or one that is not
    the digest of the payload; it then does nothing else. *)
Theorem generic_webhook_signature_gate
  (secret : option string) (payload : gmap string Any) (tasks : list Task)
  (geocoding_service : string -> Geocode) (self : LocationService)
  (sig : option string) (elapsed_ms : Py.float) (now : datetime) :
  (exists detail,
     fst (handle secret payload tasks geocoding_service self sig elapsed_ms now)
     = HTTPException 401 detail)
  <-> accepted secret payload sig = false.
Proof.
  split.
  - intros [detail H].
    destruct (accepted secret payload sig) eqn:E; [|reflexivity].
    rewrite (handle_accepted _ _ _ _ _ _ _ _ E) in H. revert H.
    unfold handle_generic_webhook, rewrapped. cbn [falsy negb andb].
    destruct (input_of payload) as [input|[[] msg]]; try discriminate.
    destruct (geocoding_service (AddressInput.address input)); try discriminate.
    destruct (find_nearest_location haversine self coords) as [[hub d]|[[] m]];
      discriminate.
  - intros E.
    destruct (handle_rejected secret payload tasks geocoding_service self sig
                elapsed_ms now E) as [detail ->]. eauto.
Qed.

(** X26: the 400 the handler writes for a payload without [address] or
    [email], or with invalid data, never reaches the client: raised
    inside the outer [try], it is caught by [except Exception] and the
    request is answered 500, with nothing queued.  The only 400 of the
    handler is the one for a [GeocodingError]. *)
Theorem generic_webhook_bad_payload_is_500
  (secret : option string) (payload : gmap string Any) (tasks : list Task)
  (geocoding_service : string -> Geocode) (self : LocationService)
  (sig : option string) (elapsed_ms : Py.float) (now : datetime) :
  accepted secret payload sig = true ->
  ((payload !! "address" = None \/ payload !! "email" = None) ->
   exists e, input_of payload = Raised (KeyError, e))
  /\ ((exists e, input_of payload = Raised e) ->
      exists detail,
        handle secret payload tasks geocoding_service self sig elapsed_ms now
        = (HTTPException 500 detail, tasks))
  /\ (forall detail,
        fst (handle secret payload tasks geocoding_service self sig elapsed_ms now)
        = HTTPException 400 detail ->
        exists input msg,
          input_of payload = Ok input
          /\ geocoding_service (AddressInput.address input) = GeocodingError msg
          /\ detail = ("Geocoding error: " ++ msg)%string).
Proof.
  intros E. rewrite (handle_accepted _ _ _ _ _ _ _ _ E).
  split; [|split].
  - unfold address_input_of_payload, payload_getitem.
    intros [H|H].
    + rewrite H. simpl. eauto.
    + rewrite H. destruct (payload !! "address"); simpl; eauto.
  - intros [[c msg] H]. unfold handle_generic_webhook, rewrapped.
    cbn [falsy negb andb]. rewrite H. destruct c; eauto.
  - intros detail. unfold handle_generic_webhook, rewrapped.
    cbn [falsy negb andb].
    destruct (input_of payload) as [input|[[] msg]]; try discriminate.
    destruct (geocoding_service (AddressInput.address input)) as [c fa|msg|msg]
      eqn:G; try discriminate.
    + destruct (find_nearest_location haversine self c) as [[hub d]|[[] m]];
        discriminate.
    + simpl. intros [= <-]. exists input, msg. repeat split. exact G.
Qed.

(** X27: a generic webhook that is answered 200 reports the name of the
    hub [find_nearest_location] returns for the geocoded address of the
    payload, and queues exactly one notification, for that match. *)
Theorem generic_webhook_success
  (secret : option string) (payload : gmap string Any) (tasks tasks' : list Task)
  (geocoding_service : string -> Geocode) (self : LocationService)
  (sig : option string) (elapsed_ms : Py.float) (now : datetime)
  (resp : WebhookResponse) :
  handle secret payload tasks geocoding_service self sig elapsed_ms now
  = (Respond resp, tasks') ->
  exists input c formatted hub d task,
    accepted secret payload sig = true
    /\ input_of payload = Ok input
    /\ geocoding_service (AddressInput.address input) = Geocoded c formatted
    /\ find_nearest_location haversine self c = Ok (hub, d)
    /\ response_matched_location resp = name hub
    /\ response_status resp = "success"%string
    /\ tasks' = tasks ++ [task]
    /\ task_address_input task = input
    /\ MatchResult.matched_location (task_match_result task) = hub
    /\ MatchResult.distance_km (task_match_result task) = d.
Proof.
  intros H.
  destruct (accepted secret payload sig) eqn:E.
  2:{ destruct (handle_rejected secret payload tasks geocoding_service self sig
                  elapsed_ms now E) as [detail Hd]. congruence. }
  rewrite (handle_accepted _ _ _ _ _ _ _ _ E) in H. revert H.
  unfold handle_generic_webhook, rewrapped. cbn [falsy negb andb].
  destruct (input_of payload) as [input|[[] msg]]; try discriminate.
  destruct (geocoding_service (AddressInput.address input)) as [c fa|msg|msg] eqn:G;
    try discriminate.
  destruct (find_nearest_location haversine self c) as [[hub d]|[[] m]] eqn:N;
    try discriminate.
  intros [= <- <-].
  exists input, c, fa, hub, d. eexists. repeat split; try reflexivity; assumption.
Qed.
End WebhookFacts.

(** ** The further properties at work *)

Lemma find_nearest_n_locations_nonneg_witness :
  active_locations Sample.registry <> []
  /\ (0 <= 2)%Z
  /\ exists l all,
      find_nearest_n_locations Sample.taxicab Sample.registry Sample.query 2 = Ok l
      /\ length l = Nat.min (Z.to_nat 2) (length (active_locations Sample.registry))
      /\ StronglySorted (fun a b => snd a <= snd b)%Q l
      /\ l = firstn (Z.to_nat 2) all
      /\ Permutation all
           (List.map (with_distance Sample.taxicab Sample.query)
              (active_locations Sample.registry))
      /\ forall d, List.filter (same_key snd d) all =
                   List.filter (same_key snd d)
                     (List.map (with_distance Sample.taxicab Sample.query)
                        (active_locations Sample.registry)).
Proof.
  assert (active_locations Sample.registry <> []) as H by (vm_compute; discriminate).
  assert (0 <= 2)%Z as Hn by lia.
  split; [exact H|]. split; [exact Hn|].
  exact (find_nearest_n_locations_nonneg Sample.taxicab Sample.registry Sample.query 2
           H Hn).
Defined.

Lemma find_nearest_n_locations_genuine_witness :
  find_nearest_n_locations Sample.taxicab Sample.registry Sample.query 2
  = Ok Sample.nearest_two
  /\ (length Sample.nearest_two <= length (active_locations Sample.registry))%nat
  /\ forall hub d, In (hub, d) Sample.nearest_two ->
       In hub (locations Sample.registry) /\ active hub = true
       /\ d = calculate_distance Sample.taxicab Sample.query (coordinates hub).
Proof.
  assert (find_nearest_n_locations Sample.taxicab Sample.registry Sample.query 2
          = Ok Sample.nearest_two) as H by (vm_compute; reflexivity).
  split; [exact H|].
  exact (find_nearest_n_locations_genuine Sample.taxicab Sample.registry Sample.query 2
           Sample.nearest_two H).
Defined.

Lemma find_nearest_n_locations_prefix_witness :
  (0 <= 2 <= 3)%Z
  /\ find_nearest_n_locations Sample.taxicab Sample.registry Sample.query 2
     = Ok Sample.nearest_two
  /\ exists more,
      find_nearest_n_locations Sample.taxicab Sample.registry Sample.query 3
      = Ok (Sample.nearest_two ++ more).
Proof.
  assert (0 <= 2 <= 3)%Z as Hn by lia.
  assert (find_nearest_n_locations Sample.taxicab Sample.registry Sample.query 2
          = Ok Sample.nearest_two) as H by (vm_compute; reflexivity).
  split; [exact Hn|]. split; [exact H|].
  exact (find_nearest_n_locations_prefix Sample.taxicab Sample.registry Sample.query
           2 3 Sample.nearest_two Hn H).
Defined.

Lemma inactive_hub_is_ignored_witness :
  find_nearest_location Sample.taxicab Sample.registry Sample.query
  = find_nearest_location Sample.taxicab Sample.active_registry Sample.query
  /\ find_nearest_n_locations Sample.taxicab Sample.registry Sample.query 2
     = find_nearest_n_locations Sample.taxicab Sample.active_registry Sample.query 2.
Proof.
  apply (inactive_hub_is_ignored Sample.taxicab Sample.active_registry Sample.registry
           Sample.query 2 [] [Sample.hubA; Sample.hubB; Sample.hubC] Sample.hubX).
  - reflexivity.
  - reflexivity.
  - reflexivity.
  - vm_compute. discriminate.
Defined.

Lemma loaded_hubs_in_range_witness :
  read_source Sample.loaded_world (init "csv") = Ok Sample.five_rows
  /\ Forall (fun hub =>
               (-90 <= latitude (coordinates hub) <= 90)%Q
               /\ (-180 <= longitude (coordinates hub) <= 180)%Q
               /\ id hub <> None)
       (locations (final (init "csv")
                     (load_locations Sample.lib Sample.loaded_world (init "csv")))).
Proof.
  assert (read_source Sample.loaded_world (init "csv") = Ok Sample.five_rows)
    as H by reflexivity.
  split; [exact H|].
  exact (loaded_hubs_in_range Sample.lib Sample.loaded_world (init "csv")
           Sample.five_rows H).
Defined.

Lemma load_locations_replaces_witness :
  value (load_locations Sample.lib Sample.loaded_world Sample.registry)
  = Ok Sample.four_hubs
  /\ locations (final Sample.registry
                  (load_locations Sample.lib Sample.loaded_world Sample.registry))
     = Sample.four_hubs
  /\ last_loaded (final Sample.registry
                    (load_locations Sample.lib Sample.loaded_world Sample.registry))
     = Some (utcnow Sample.loaded_world).
Proof.
  assert (value (load_locations Sample.lib Sample.loaded_world Sample.registry)
          = Ok Sample.four_hubs) as H by (vm_compute; reflexivity).
  split; [exact H|].
  destruct (load_locations_replaces Sample.lib Sample.loaded_world Sample.registry
              Sample.four_hubs H) as (rows & _ & _ & H1 & H2 & _).
  split; [exact H1|exact H2].
Defined.

Lemma reload_is_idempotent_witness :
  read_source Sample.loaded_world Sample.registry = Ok Sample.five_rows
  /\ final (final Sample.registry
              (load_locations Sample.lib Sample.loaded_world Sample.registry))
       (reload_locations Sample.lib Sample.loaded_world
          (final Sample.registry
             (load_locations Sample.lib Sample.loaded_world Sample.registry)))
     = final Sample.registry
         (load_locations Sample.lib Sample.loaded_world Sample.registry).
Proof.
  assert (read_source Sample.loaded_world Sample.registry = Ok Sample.five_rows)
    as H by reflexivity.
  split; [exact H|].
  exact (proj1 (reload_is_idempotent Sample.lib Sample.loaded_world Sample.registry
                  Sample.five_rows H)).
Defined.

(** The text [no] in the [active] column still gives an active hub. *)
Lemma make_location_active_flag_witness :
  exists loc,
    make_location Sample.lib Sample.row_marked_no = Ok loc
    /\ active loc = true.
Proof.
  destruct (make_location Sample.lib Sample.row_marked_no) as [loc|e] eqn:E;
    [|vm_compute in E; discriminate].
  exists loc. split; [reflexivity|].
  destruct (make_location_active_flag Sample.lib Sample.row_marked_no loc E)
    as (_ & _ & H).
  apply (H "no"%string); [vm_compute; reflexivity|discriminate].
Defined.

Lemma match_address_result_witness :
  exists r tasks',
    match_address Sample.taxicab Sample.miles (Sample.applicant "1 Equator Rd") []
      Sample.geocoder Sample.registry true 12 3%Z
    = (Respond r, tasks')
    /\ MatchResult.matched_location r = Sample.hubA
    /\ active (MatchResult.matched_location r) = true
    /\ length tasks' = 1%nat.
Proof.
  destruct (match_address Sample.taxicab Sample.miles (Sample.applicant "1 Equator Rd")
              [] Sample.geocoder Sample.registry true 12 3%Z)
    as [[r|status detail] tasks'] eqn:E; [|vm_compute in E; discriminate].
  exists r, tasks'. split; [reflexivity|].
  destruct (match_address_result Sample.taxicab Sample.miles _ _ _ _ _ _ _ r tasks' E)
    as (_ & _ & _ & Ha & _ & _ & _ & Ht).
  split; [|split; [exact Ha|]].
  - vm_compute in E. now injection E as <- _.
  - rewrite Ht. reflexivity.
Defined.

Lemma batch_match_addresses_results_witness :
  (Z.of_nat (length Sample.batch_of_three) <= 100)%Z
  /\ active_locations Sample.registry <> []
  /\ exists results queued,
      batch_match_addresses Sample.taxicab Sample.miles Sample.batch_of_three []
        Sample.geocoder Sample.registry true 100 (fun i => Z.of_nat i)
      = (Respond results, [] ++ queued)
      /\ List.map MatchResult.input_address results
         = ["1 Equator Rd"; "1 Equator Rd"]%string
      /\ List.map task_match_result queued = results.
Proof.
  assert (Z.of_nat (length Sample.batch_of_three) <= 100)%Z as H
    by (vm_compute; discriminate).
  assert (active_locations Sample.registry <> []) as Hne by (vm_compute; discriminate).
  split; [exact H|]. split; [exact Hne|].
  destruct (batch_match_addresses_results Sample.taxicab Sample.miles
              Sample.batch_of_three [] Sample.geocoder Sample.registry true 100
              (fun i => Z.of_nat i) H Hne)
    as (results & queued & E & Hin & _ & _ & Hq).
  exists results, queued. split; [exact E|]. split; [exact Hin|exact Hq].
Defined.

Lemma batch_without_active_hub_witness :
  (Z.of_nat (length Sample.batch_of_three) <= 100)%Z
  /\ active_locations Sample.idle_registry = []
  /\ batch_match_addresses Sample.taxicab Sample.miles Sample.batch_of_three []
       Sample.geocoder Sample.idle_registry true 100 (fun i => Z.of_nat i)
     = (Respond [], []).
Proof.
  assert (Z.of_nat (length Sample.batch_of_three) <= 100)%Z as H
    by (vm_compute; discriminate).
  assert (active_locations Sample.idle_registry = []) as He by reflexivity.
  split; [exact H|]. split; [exact He|].
  exact (batch_without_active_hub Sample.taxicab Sample.miles Sample.batch_of_three []
           Sample.geocoder Sample.idle_registry true 100 (fun i => Z.of_nat i) H He).
Defined.

Lemma validate_phone_ignores_formatting_witness :
  is_digit "-"%char = false
  /\ (validate_phone (Some "555-1234"%string) = Ok (Some "555-1234"%string)
      <-> validate_phone (Some "5551234"%string) = Ok (Some "5551234"%string)).
Proof.
  assert (is_digit "-"%char = false) as H by reflexivity.
  split; [exact H|].
  exact (proj1 (validate_phone_ignores_formatting "555" "1234" "-"%char H)).
Defined.

Lemma generic_webhook_bad_payload_is_500_witness :
  signature_accepted digest_without_json None Sample.bad_payload None = true
  /\ exists detail,
      handle_generic_webhook Sample.taxicab Sample.miles PyVal Sample.parse_input
        digest_without_json Sample.str_http None Sample.bad_payload [] Sample.geocoder
        Sample.registry None 12 3%Z
      = (HTTPException 500 detail, []).
Proof.
  assert (signature_accepted digest_without_json None Sample.bad_payload None = true)
    as H by reflexivity.
  split; [exact H|].
  destruct (generic_webhook_bad_payload_is_500 Sample.taxicab Sample.miles PyVal
              Sample.parse_input digest_without_json Sample.str_http None Sample.bad_payload
              [] Sample.geocoder Sample.registry None 12 3%Z H)
    as (Hkey & H500 & _).
  apply H500. destruct Hkey as [e He]; [left; reflexivity|eauto].
Defined.

Lemma generic_webhook_success_witness :
  exists resp tasks',
    handle_generic_webhook Sample.taxicab Sample.miles PyVal Sample.parse_input
      digest_without_json Sample.str_http None Sample.good_payload []
      Sample.geocoder Sample.registry None 12 3%Z
    = (Respond resp, tasks')
    /\ response_matched_location resp = "Hub A"%string
    /\ length tasks' = 1%nat.
Proof.
  destruct (handle_generic_webhook Sample.taxicab Sample.miles PyVal Sample.parse_input
              digest_without_json Sample.str_http None Sample.good_payload
              [] Sample.geocoder Sample.registry None 12 3%Z)
    as [[resp|status detail] tasks'] eqn:E; [|vm_compute in E; discriminate].
  exists resp, tasks'. split; [reflexivity|].
  destruct (generic_webhook_success Sample.taxicab Sample.miles PyVal Sample.parse_input
              digest_without_json Sample.str_http _ _ _ _ _ _ _ _ _ resp E)
    as (input & c & fa & hub & d & task & _ & _ & _ & _ & _ & _ & Ht & _).
  split.
  - vm_compute in E. now injection E as <- _.
  - rewrite Ht. reflexivity.
Defined.

Lemma loaded_hubs_in_row_order_witness :
  read_source Sample.loaded_world (init "csv") = Ok Sample.five_rows
  /\ (length (locations (final (init "csv")
                           (load_locations Sample.lib Sample.loaded_world (init "csv"))))
      <= length Sample.five_rows)%nat.
Proof.
  assert (read_source Sample.loaded_world (init "csv") = Ok Sample.five_rows)
    as H by reflexivity.
  split; [exact H|].
  exact (proj1 (loaded_hubs_in_row_order Sample.lib Sample.loaded_world (init "csv")
                  Sample.five_rows H)).
Defined.

(** ** More on the routes *)

Lemma get_location_by_id_cases (self : LocationService) (location_id : string) :
  match get_location_by_id self location_id with
  | Some hub => In hub (locations self) /\ id hub = Some location_id
  | None => Forall (fun x => id x <> Some location_id) (locations self)
  end.
Proof.
  unfold get_location_by_id. induction (locations self) as [|x l IH]; simpl.
  - constructor.
  - destruct (option_string_eqb (id x) location_id) eqn:E.
    + apply option_string_eqb_eq in E. auto.
    + destruct (get_location_by_id_scan l location_id).
      * destruct IH. auto.
      * constructor; [|exact IH].
        intros H. apply option_string_eqb_eq in H. congruence.
Qed.

(** X28: [GET /locations/{location_id}] answers with a hub of the
    registry that carries the id, or with 404 and no other status, and
    404 only when no hub of the registry carries the id. *)
Theorem get_location_found_or_404 (location_id : string) (self : LocationService) :
  match get_location location_id self with
  | Respond hub => In hub (locations self) /\ id hub = Some location_id
  | HTTPException status_code detail =>
    status_code = 404%Z
    /\ detail = ("Location with ID " ++ location_id ++ " not found")%string
    /\ Forall (fun x => id x <> Some location_id) (locations self)
  end.
Proof.
  unfold get_location.
  pose proof (get_location_by_id_cases self location_id) as H.
  destruct (get_location_by_id self location_id); auto.
Qed.

(** X29: [webhook_router.py] never computes the digest of a payload,
    because it calls [json.dumps] without importing [json]; so
    [_validate_generic_signature] accepts exactly when no secret is
    configured, and with a secret configured the generic webhook
    answers every request with 401, whatever its signature, and queues
    nothing. *)
Theorem generic_webhook_secret_rejects_everything
  (haversine : Py.float * Py.float -> Py.float * Py.float -> Py.float)
  (to_miles : Py.float -> Py.float) (Any : Type)
  (parse_address_input :
     Any -> Any -> option Any -> option Any -> option Any -> option Any ->
     result AddressInput.t)
  (str_HTTPException : Z -> string -> string)
  (secret : option string) (payload : gmap string Any) (tasks : list Task)
  (geocoding_service : string -> Geocode) (self : LocationService)
  (sig : option string) (elapsed_ms : Py.float) (now : datetime) :
  (forall signature,
     _validate_generic_signature Any digest_without_json secret payload signature
     = falsy secret)
  /\ (falsy secret = false ->
      exists detail,
        handle_generic_webhook haversine to_miles Any parse_address_input
          digest_without_json str_HTTPException secret payload tasks geocoding_service
          self sig elapsed_ms now
        = (HTTPException 401 detail, tasks)).
Proof.
  assert (forall signature,
            _validate_generic_signature Any digest_without_json secret payload signature
            = falsy secret) as Hv.
  { intros signature. unfold _validate_generic_signature, digest_without_json.
    now destruct (falsy secret). }
  split; [exact Hv|].
  intros Hs. apply handle_rejected.
  unfold signature_accepted. rewrite Hv, Hs.
  now destruct (falsy sig).
Qed.

Lemma generic_webhook_secret_rejects_everything_witness :
  falsy (Some "s3cret"%string) = false
  /\ exists detail,
      handle_generic_webhook Sample.taxicab Sample.miles PyVal Sample.parse_input
        digest_without_json Sample.str_http (Some "s3cret"%string) Sample.good_payload
        [] Sample.geocoder Sample.registry (Some "0123abcd"%string) 12 3%Z
      = (HTTPException 401 detail, []).
Proof.
  assert (falsy (Some "s3cret"%string) = false) as H by reflexivity.
  split; [exact H|].
  exact (proj2 (generic_webhook_secret_rejects_everything Sample.taxicab Sample.miles
                  PyVal Sample.parse_input Sample.str_http (Some "s3cret"%string)
                  Sample.good_payload [] Sample.geocoder Sample.registry
                  (Some "0123abcd"%string) 12 3%Z) H).
Defined.
